(** * Pyrogram media identifiers and transfers: a shallow embedding

    The development follows four source files of the client:
    - [client/methods/messages/download_media.py]: decoding of a file id,
      destination and file-name resolution, hand-over to the download queue;
    - [client/types/messages_and_media/photo.py] and [sticker.py]: the two
      encoders of file ids;
    - [client/methods/messages/send_video_note.py]: the send loop that
      re-submits a missing file part.

    Python values are modelled as follows.  [bytes] is a list of [byte];
    an [int] is a [Z]; a [str] is a [string], except for the one-character
    string that [chr] builds, which is kept as its code point; [None] is
    [option]'s [None]; a raised exception is the [Raise] constructor of
    [result].  The [struct] module is embedded for the little-endian,
    unpadded formats the code uses (the codes [i] and [q] after [<]). *)

From Stdlib.Strings Require Import String Ascii Byte.
From Stdlib Require Import ZArith List Bool Lia DecimalString.
From Stdlib Require DecimalPos DecimalZ.
Import ListNotations.
Open Scope string_scope.
Open Scope list_scope.
Open Scope Z_scope.

(** ** Exceptions and results *)

Inductive exn : Type :=
| AssertionError
| binascii_Error
| struct_error
| IndexError
| ValueError (msg : string)
| KeyError (key : option Z)
| AttributeError (attr : string)
| FileIdInvalid
| FilePartMissing (x : Z)
| StopTransmission
| RPCError (name : string).

Inductive result (A : Type) : Type :=
| Return (a : A)
| Raise (e : exn).

Arguments Return {A} a.
Arguments Raise {A} e.

Definition bind {A B : Type} (r : result A) (k : A -> result B) : result B :=
  match r with
  | Return a => k a
  | Raise e => Raise e
  end.

Notation "x <- r ;; k" := (bind r (fun x => k))
  (at level 61, r at next level, right associativity).

(** Python truthiness of [a or b] on optional integers and strings. *)

Definition or_int (a : option Z) (b : Z) : Z :=
  match a with
  | Some v => if v =? 0 then b else v
  | None => b
  end.

Definition or_str (a : option string) (b : string) : string :=
  match a with
  | Some EmptyString => b
  | Some s => s
  | None => b
  end.

(** ** Bytes and little-endian integers *)

Definition bytes := list byte.

Definition byte_to_Z (b : byte) : Z := Z.of_N (Byte.to_N b).

Definition byte_of_Z (z : Z) : byte :=
  match Byte.of_N (Z.to_N (z mod 256)) with
  | Some b => b
  | None => x00
  end.

Fixpoint le_unsigned (bs : bytes) : Z :=
  match bs with
  | [] => 0
  | b :: bs' => byte_to_Z b + 256 * le_unsigned bs'
  end.

(** Two's complement reading of an unsigned value on [w] bytes. *)
Definition to_signed (w : nat) (u : Z) : Z :=
  if u <? 2 ^ (8 * Z.of_nat w - 1) then u else u - 2 ^ (8 * Z.of_nat w).

Definition le_signed (w : nat) (bs : bytes) : Z :=
  to_signed w (le_unsigned bs).

Fixpoint le_bytes (w : nat) (z : Z) : bytes :=
  match w with
  | O => []
  | S w' => byte_of_Z z :: le_bytes w' (z / 256)
  end.

(** ** The [struct] module, for formats [<] followed by [i] and [q] *)

Inductive ctype : Type :=
| c_i   (* "i": signed, 4 bytes *)
| c_q.  (* "q": signed, 8 bytes *)

Definition sizeof (c : ctype) : nat :=
  match c with
  | c_i => 4
  | c_q => 8
  end.

Definition format := list ctype.

Fixpoint calcsize (fmt : format) : nat :=
  match fmt with
  | [] => O
  | c :: fmt' => (sizeof c + calcsize fmt')%nat
  end.

Definition in_range (c : ctype) (v : Z) : bool :=
  (- 2 ^ (8 * Z.of_nat (sizeof c) - 1) <=? v)
  && (v <? 2 ^ (8 * Z.of_nat (sizeof c) - 1)).

Fixpoint pack_fields (fmt : format) (vals : list Z) : result bytes :=
  match fmt, vals with
  | [], [] => Return []
  | c :: fmt', v :: vals' =>
      if in_range c v
      then rest <- pack_fields fmt' vals' ;; Return (le_bytes (sizeof c) v ++ rest)
      else Raise struct_error
  | _, _ => Raise struct_error
  end.

Definition pack (fmt : format) (vals : list Z) : result bytes :=
  pack_fields fmt vals.

Fixpoint unpack_fields (fmt : format) (bs : bytes) : list Z :=
  match fmt with
  | [] => []
  | c :: fmt' =>
      le_signed (sizeof c) (firstn (sizeof c) bs)
        :: unpack_fields fmt' (skipn (sizeof c) bs)
  end.

(** [struct.unpack] wants a buffer of exactly [calcsize fmt] bytes. *)
Definition unpack (fmt : format) (bs : bytes) : result (list Z) :=
  if Nat.eqb (length bs) (calcsize fmt)
  then Return (unpack_fields fmt bs)
  else Raise struct_error.

(** The three formats of the sources. *)
Definition fmt_iiqqqiiiqi : format :=
  [c_i; c_i; c_q; c_q; c_q; c_i; c_i; c_i; c_q; c_i].
Definition fmt_iiqqqiiii : format :=
  [c_i; c_i; c_q; c_q; c_q; c_i; c_i; c_i; c_i].
Definition fmt_iiqq : format :=
  [c_i; c_i; c_q; c_q].

(** ** Built-ins: [bytes.__getitem__], [chr], [ord] *)

Definition getitem0 (bs : bytes) : result Z :=
  match bs with
  | [] => Raise IndexError
  | b :: _ => Return (byte_to_Z b)
  end.

Definition chr_error : string := "chr() arg not in range(0x110000)".

(** A one-character [str] is kept as its code point. *)
Definition chr (i : Z) : result Z :=
  if (0 <=? i) && (i <? 1114112) then Return i else Raise (ValueError chr_error).

Definition ord (c : Z) : Z := c.

Definition in_tuple (x : Z) (t : list Z) : bool :=
  existsb (Z.eqb x) t.

(** ** [FileData] and the collaborators of [BaseClient] *)

(** [pyrogram.client.ext.FileData]: every attribute defaults to [None]. *)
Record FileData : Type := mkFileData {
  media_type : option Z;
  dc_id : option Z;
  document_id : option Z;
  access_hash : option Z;
  thumb_size : option Z;
  peer_id : option Z;
  peer_access_hash : option Z;
  volume_id : option Z;
  local_id : option Z;
  is_big : option bool;
  file_size : option Z;
  mime_type : option string;
  file_name : option string;
  date : option Z
}.

(** [FileData(file_name=.., file_size=.., mime_type=.., date=..)]. *)
Definition FileData_of_attributes
    (name : option string) (size : option Z) (mime : option string)
    (d : option Z) : FileData :=
  {| media_type := None; dc_id := None; document_id := None;
     access_hash := None; thumb_size := None; peer_id := None;
     peer_access_hash := None; volume_id := None; local_id := None;
     is_big := None; file_size := size; mime_type := mime;
     file_name := name; date := d |}.

(** What the methods reach through [self] and through [ext.utils]; none of
    it is defined in the files followed here, so it is an interface. *)
Record BaseClient : Type := mkBaseClient {
  utils_decode : string -> result bytes;       (* ext.utils.decode *)
  utils_encode : bytes -> string;              (* ext.utils.encode *)
  MEDIA_TYPE_ID : Z -> option string;          (* a dict of labels *)
  guess_extension : option string -> option string;
  parent_join : string -> string;              (* str(self.PARENT_DIR / x) *)
  strftime : Z -> string  (* fromtimestamp(t).strftime("%Y-%m-%d_%H-%M-%S") *)
}.

(** ** [download_media]: the file id *)

Definition unknown_media_type (file_id_str : string) : string :=
  String.append "Unknown media type: " file_id_str.

Definition unpack_mismatch : string := "not enough values to unpack".

(** The body of the [try] block: [data] is the [FileData] built from the
    media object; its attributes that are not [None] are carried over by
    [get_existing_attributes]. *)
Definition download_media_try (self : BaseClient) (file_id_str : string)
    (data : FileData) : result FileData :=
  decoded <- utils_decode self file_id_str ;;
  media_type <- getitem0 decoded ;;
  if media_type =? 1 then
    unpacked <- unpack fmt_iiqqqiiiqi decoded ;;
    match tl unpacked with
    | [dc_id; photo_id; _; volume_id; size_type; peer_id; _;
       peer_access_hash; local_id] =>
        Return {| media_type := Some media_type;
                  dc_id := Some dc_id;
                  document_id := None;
                  access_hash := None;
                  thumb_size := None;
                  peer_id := Some peer_id;
                  peer_access_hash := Some peer_access_hash;
                  volume_id := Some volume_id;
                  local_id := Some local_id;
                  is_big := Some (size_type =? 3);
                  file_size := file_size data;
                  mime_type := mime_type data;
                  file_name := file_name data;
                  date := date data |}
    | _ => Raise (ValueError unpack_mismatch)
    end
  else if in_tuple media_type [0; 2; 14] then
    unpacked <- unpack fmt_iiqqqiiii decoded ;;
    match tl unpacked with
    | [dc_id; document_id; access_hash; volume_id; _; _; thumb_size;
       local_id] =>
        thumb <- chr thumb_size ;;
        Return {| media_type := Some media_type;
                  dc_id := Some dc_id;
                  document_id := Some document_id;
                  access_hash := Some access_hash;
                  thumb_size := Some thumb;
                  peer_id := None;
                  peer_access_hash := None;
                  volume_id := None;
                  local_id := None;
                  is_big := None;
                  file_size := file_size data;
                  mime_type := mime_type data;
                  file_name := file_name data;
                  date := date data |}
    | _ => Raise (ValueError unpack_mismatch)
    end
  else if in_tuple media_type [3; 4; 5; 8; 9; 10; 13] then
    unpacked <- unpack fmt_iiqq decoded ;;
    match tl unpacked with
    | [dc_id; document_id; access_hash] =>
        Return {| media_type := Some media_type;
                  dc_id := Some dc_id;
                  document_id := Some document_id;
                  access_hash := Some access_hash;
                  thumb_size := None;
                  peer_id := None;
                  peer_access_hash := None;
                  volume_id := None;
                  local_id := None;
                  is_big := None;
                  file_size := file_size data;
                  mime_type := mime_type data;
                  file_name := file_name data;
                  date := date data |}
    | _ => Raise (ValueError unpack_mismatch)
    end
  else Raise (ValueError (unknown_media_type file_id_str)).

(** [except (AssertionError, binascii.Error, struct.error):
      raise FileIdInvalid from None]. *)
Definition except_FileIdInvalid {A : Type} (r : result A) : result A :=
  match r with
  | Raise AssertionError => Raise FileIdInvalid
  | Raise binascii_Error => Raise FileIdInvalid
  | Raise struct_error => Raise FileIdInvalid
  | _ => r
  end.

Definition download_media_decode (self : BaseClient) (file_id_str : string)
    (data : FileData) : result FileData :=
  except_FileIdInvalid (download_media_try self file_id_str data).

(** ** The encoders of [Photo._parse] and [Sticker._parse] *)

(** [pack("<iiqqqiiii", 2, photo.dc_id, photo.id, photo.access_hash,
    big.location.volume_id, 1, 2, ord(big.type), big.location.local_id)].
    The leading constant is 2 in [Photo._parse]; it is an argument here so
    that the sibling encoders of tags 0 and 14 are instances. *)
Definition pack_with_thumb (tag p_dc_id p_id p_access_hash p_volume_id
    big_type p_local_id : Z) : result bytes :=
  pack fmt_iiqqqiiii
    [tag; p_dc_id; p_id; p_access_hash; p_volume_id; 1; 2; ord big_type;
     p_local_id].

Definition Photo_parse_file_id (self : BaseClient)
    (p_dc_id p_id p_access_hash p_volume_id big_type p_local_id : Z)
    : result string :=
  blob <- pack_with_thumb 2 p_dc_id p_id p_access_hash p_volume_id big_type
            p_local_id ;;
  Return (utils_encode self blob).

(** [pack("<iiqq", 8, sticker.dc_id, sticker.id, sticker.access_hash)];
    again the leading constant is an argument. *)
Definition pack_document (tag s_dc_id s_id s_access_hash : Z) : result bytes :=
  pack fmt_iiqq [tag; s_dc_id; s_id; s_access_hash].

Definition Sticker_parse_file_id (self : BaseClient)
    (s_dc_id s_id s_access_hash : Z) : result string :=
  blob <- pack_document 8 s_dc_id s_id s_access_hash ;;
  Return (utils_encode self blob).

(** Modelled from the spec: the encoder of the photo-like variant (tag 1)
    is not among the files followed here.  The spec fixes the variant's
    fields and the rule that [is_big] is the size classification 3; the
    positions are those the decoder reads with ["<iiqqqiiiqi"].  The two
    fields the decoder skips and the photo id are arguments. *)
Definition pack_photo_like (p_dc_id p_photo_id skipped1 p_volume_id : Z)
    (big : bool) (p_peer_id skipped2 p_peer_access_hash p_local_id : Z)
    : result bytes :=
  pack fmt_iiqqqiiiqi
    [1; p_dc_id; p_photo_id; skipped1; p_volume_id; if big then 3 else 2;
     p_peer_id; skipped2; p_peer_access_hash; p_local_id].

(** The 32-bit tag word and the fields at fixed offsets, read directly. *)
Definition field (w : nat) (offset : nat) (blob : bytes) : Z :=
  le_signed w (firstn w (skipn offset blob)).

Definition tag32 (blob : bytes) : Z := field 4 0 blob.

Definition known_tags : list Z := [1; 0; 2; 14; 3; 4; 5; 8; 9; 10; 13].

(** The layout the decoder applies, as a function of the first byte. *)
Definition layout_of_byte (b : Z) : option format :=
  if b =? 1 then Some fmt_iiqqqiiiqi
  else if in_tuple b [0; 2; 14] then Some fmt_iiqqqiiii
  else if in_tuple b [3; 4; 5; 8; 9; 10; 13] then Some fmt_iiqq
  else None.

(** ** [download_media]: which media, where to, under what name *)

Definition DEFAULT_DOWNLOAD_DIR : string := "downloads/".

Definition error_message : string :=
  "This message doesn't contain any downloadable media".

Definition available_media : list string :=
  ["audio"; "document"; "photo"; "sticker"; "animation"; "video"; "voice";
   "video_note"].

(** A media object, seen through the [getattr] calls of the method. *)
Record Media : Type := mkMedia {
  m_file_id : string;
  m_file_name : option string;
  m_file_size : option Z;
  m_file_reference : bytes;
  m_mime_type : option string;
  m_date : option Z
}.

(** The first argument: a [Message] (its attributes by name), a media
    object, or a file id. *)
Inductive download_arg : Type :=
| arg_Message (attrs : string -> option Media)
| arg_Media (m : Media)
| arg_str (file_id : string).

Fixpoint first_media (attrs : string -> option Media) (kinds : list string)
    : option Media :=
  match kinds with
  | [] => None
  | kind :: kinds' =>
      match attrs kind with
      | Some m => Some m
      | None => first_media attrs kinds'
      end
  end.

(** Lines 101-133: the file id, the initial [FileData], the file
    reference. *)
Definition download_media_source (message : download_arg)
    : result (string * FileData * bytes) :=
  match message with
  | arg_Message attrs =>
      match first_media attrs available_media with
      | Some m =>
          Return (m_file_id m,
                  FileData_of_attributes (m_file_name m) (m_file_size m)
                    (m_mime_type m) (m_date m),
                  m_file_reference m)
      | None => Raise (ValueError error_message)
      end
  | arg_Media m =>
      Return (m_file_id m,
              FileData_of_attributes (m_file_name m) (m_file_size m)
                (m_mime_type m) (m_date m),
              m_file_reference m)
  | arg_str s => Return (s, FileData_of_attributes None None None None, [])
  end.

(** [os.path] of POSIX: [split] cuts after the last ["/"] and strips the
    trailing separators of a head that is not made of separators only;
    [isabs] tests the first character. *)
Definition is_sep (c : ascii) : bool := Ascii.eqb c "/"%char.

Fixpoint rfind_from (p : list ascii) (i found : Z) : Z :=
  match p with
  | [] => found
  | c :: p' => rfind_from p' (i + 1) (if is_sep c then i else found)
  end.

Definition rfind_sep (p : list ascii) : Z := rfind_from p 0 (-1).

Fixpoint lstrip_sep (p : list ascii) : list ascii :=
  match p with
  | [] => []
  | c :: p' => if is_sep c then lstrip_sep p' else p
  end.

Definition rstrip_sep (p : list ascii) : list ascii :=
  rev (lstrip_sep (rev p)).

Definition os_path_split (path : string) : string * string :=
  let p := list_ascii_of_string path in
  let i := Z.to_nat (rfind_sep p + 1) in
  let head := firstn i p in
  let tail := skipn i p in
  let head' :=
    match head with
    | [] => head
    | _ => if forallb is_sep head then head else rstrip_sep head
    end in
  (string_of_list_ascii head', string_of_list_ascii tail).

Definition os_path_isabs (s : string) : bool :=
  match s with
  | String c _ => is_sep c
  | EmptyString => false
  end.

(** Lines 187-191.  [file_name_arg] is the parameter [file_name]; the
    local [file_name] is rebound twice in the source. *)
Definition download_media_destination (self : BaseClient)
    (file_name_arg : string) (data : FileData) : string * string :=
  let data_file_name := file_name data in
  let (directory, file_name) := os_path_split file_name_arg in
  let file_name := or_str (Some file_name) (or_str data_file_name "") in
  let directory :=
    if negb (os_path_isabs file_name)
    then parent_join self (or_str (Some directory) DEFAULT_DOWNLOAD_DIR)
    else directory in
  (directory, file_name).

(** [str(n)] for an [int], as ["{}".format(n)] prints it. *)
Definition str_int (n : Z) : string := NilZero.string_of_int (Z.to_int n).

(** Lines 198-211: the extension of a synthesized name. *)
Definition download_media_extension (self : BaseClient) (data : FileData)
    : string :=
  let guessed_extension := guess_extension self (mime_type data) in
  match media_type data with
  | Some mt =>
      if in_tuple mt [0; 1; 2; 14] then ".jpg"
      else if mt =? 3 then or_str guessed_extension ".ogg"
      else if in_tuple mt [4; 10; 13] then or_str guessed_extension ".mp4"
      else if mt =? 5 then or_str guessed_extension ".zip"
      else if mt =? 8 then or_str guessed_extension ".webp"
      else if mt =? 9 then or_str guessed_extension ".mp3"
      else ".unknown"
  | None => ".unknown"
  end.

(** ["{}_{}_{}{}".format(media_type_str, <timestamp>, self.rnd_id(),
    extension)]; [rnd] is the value of [self.rnd_id()] and [now] the whole
    seconds of [time.time()], which is all the format keeps of it. *)
Definition synthesized_name (self : BaseClient) (data : FileData)
    (media_type_str : string) (rnd now : Z) : string :=
  String.append media_type_str
    (String.append "_"
       (String.append (strftime self (or_int (date data) now))
          (String.append "_"
             (String.append (str_int rnd)
                (download_media_extension self data))))).

(** Lines 193-218. *)
Definition download_media_file_name (self : BaseClient) (data : FileData)
    (name : string) (rnd now : Z) : result string :=
  let label :=
    match media_type data with
    | Some mt => MEDIA_TYPE_ID self mt
    | None => None
    end in
  match label with
  | None => Raise (KeyError (media_type data))
  | Some media_type_str =>
      match name with
      | EmptyString =>
          Return (synthesized_name self data media_type_str rnd now)
      | _ => Return name
      end
  end.

(** ** The download queue *)

(** The pair [(done, path)] that the method creates and hands to the
    worker inside the queued tuple: an [Event] and a one-element list,
    kept together as one cell of a store and shared by its index. *)
Record Cell : Type := mkCell {
  done_is_set : bool;
  path_0 : option string
}.

(** The queued tuple, without the progress callback and its arguments. *)
Record Job : Type := mkJob {
  job_data : FileData;
  job_directory : string;
  job_file_name : string;
  job_cell : nat;
  job_file_reference : bytes
}.

Record Client : Type := mkClient {
  download_queue : list Job;
  cells : list Cell
}.

Definition new_cell : Cell := {| done_is_set := false; path_0 := None |}.

Definition get_cell (c : Client) (h : nat) : Cell :=
  nth h (cells c) new_cell.

Fixpoint set_nth (l : list Cell) (h : nat) (v : Cell) : list Cell :=
  match l, h with
  | [], _ => []
  | _ :: l', O => v :: l'
  | x :: l', S h' => x :: set_nth l' h' v
  end.

Inductive transfer_outcome : Type :=
| Completed (final_path : string)
| Failed
| Cancelled.

(** Modelled from the spec: the download worker is not among the files
    followed here.  By the spec it takes the jobs in FIFO order, runs the
    transfer, and brings the job to a terminal state; a blocked caller then
    reads a resolved local path, or nothing after a failure or a
    cancellation.  [transfer] is the outcome of the transfer of a job. *)
Definition download_worker_step (transfer : Job -> transfer_outcome)
    (c : Client) : Client :=
  match download_queue c with
  | [] => c
  | j :: q =>
      let published :=
        match transfer j with
        | Completed final_path => Some final_path
        | Failed => None
        | Cancelled => None
        end in
      {| download_queue := q;
         cells := set_nth (cells c) (job_cell j)
                    {| done_is_set := true; path_0 := published |} |}
  end.

(** [done.wait()]: the caller is suspended while the worker runs; [None]
    is a caller that is never woken up. *)
Fixpoint wait_loop (fuel : nat) (transfer : Job -> transfer_outcome)
    (h : nat) (c : Client) : option Client :=
  if done_is_set (get_cell c h) then Some c
  else
    match fuel with
    | O => None
    | S fuel' =>
        match download_queue c with
        | [] => None
        | _ => wait_loop fuel' transfer h (download_worker_step transfer c)
        end
    end.

Definition done_wait (transfer : Job -> transfer_outcome) (h : nat)
    (c : Client) : option Client :=
  wait_loop (List.length (download_queue c)) transfer h c.

(** Lines 98-218: everything before the job is queued. *)
Definition download_media_prepare (self : BaseClient) (message : download_arg)
    (file_name_arg : string) (rnd now : Z)
    : result (FileData * string * string * bytes) :=
  src <- download_media_source message ;;
  let '(file_id_str, data0, file_reference) := src in
  data <- download_media_decode self file_id_str data0 ;;
  let (directory, name) :=
    download_media_destination self file_name_arg data in
  name' <- download_media_file_name self data name rnd now ;;
  Return (data, directory, name', file_reference).

(** Lines 98-226, the whole method.  The result is [None] when the call
    never returns. *)
Definition download_media (self : BaseClient)
    (transfer : Job -> transfer_outcome) (message : download_arg)
    (file_name_arg : string) (block : bool) (rnd now : Z) (c : Client)
    : option (result (option string) * Client) :=
  match download_media_prepare self message file_name_arg rnd now with
  | Raise e => Some (Raise e, c)
  | Return (data, directory, name, file_reference) =>
      let h := List.length (cells c) in
      let job :=
        {| job_data := data; job_directory := directory;
           job_file_name := name; job_cell := h;
           job_file_reference := file_reference |} in
      let c1 :=
        {| download_queue := download_queue c ++ [job];
           cells := cells c ++ [new_cell] |} in
      if block then
        match done_wait transfer h c1 with
        | Some c2 => Some (Return (path_0 (get_cell c2 h)), c2)
        | None => None
        end
      else Some (Return (path_0 (get_cell c1 h)), c1)
  end.

(** Every queued job points at a cell that exists. *)
Definition wf_client (c : Client) : Prop :=
  Forall (fun j => (job_cell j < List.length (cells c))%nat) (download_queue c).

(** ** [send_video_note] *)

(** The [InputFile] that [save_file] returns; only its [id] is used. *)
Record InputFile : Type := mkInputFile { file_id : Z }.

Inductive InputMedia : Type :=
| InputMediaUploadedDocument (file : option InputFile) (thumb : option InputFile)
| InputMediaDocument (file_id_str : string) (expected_media_type : Z).

Inductive Update : Type :=
| UpdateNewMessage (message : Z)
| UpdateNewChannelMessage (message : Z)
| UpdateNewScheduledMessage (message : Z)
| UpdateOther.

Record Updates : Type := mkUpdates {
  updates : list Update;
  users : list Z;
  chats : list Z
}.

(** The arguments [pyrogram.Message._parse] is called with. *)
Record Message : Type := mkMessage {
  parsed_message : Z;
  parsed_users : list Z;
  parsed_chats : list Z;
  is_scheduled : bool
}.

(** The two calls that leave the method. *)
Inductive call : Type :=
| call_save_file (path : string) (file_id : option Z) (file_part : Z)
    (progress : bool)
| call_send (media : InputMedia).

(** The world the method runs in: whether the path exists, what the next
    calls of [save_file] and [send] answer, and the calls made so far. *)
Record World : Type := mkWorld {
  path_exists : string -> bool;
  input_media_from_file_id : string -> Z -> result InputMedia;
  save_file_replies : list (result (option InputFile));
  send_replies : list (result Updates);
  calls : list call
}.

(** A computation returns or raises in a new world; [None] is a run that
    the replies of the world do not determine to its end. *)
Definition IO (A : Type) : Type := World -> option (result A * World).

Definition io_ret {A : Type} (a : A) : IO A := fun w => Some (Return a, w).

Definition io_lift {A : Type} (r : result A) : IO A := fun w => Some (r, w).

Definition io_bind {A B : Type} (m : IO A) (k : A -> IO B) : IO B :=
  fun w =>
    match m w with
    | None => None
    | Some (Raise e, w') => Some (Raise e, w')
    | Some (Return a, w') => k a w'
    end.

Notation "x <~ m ;; k" := (io_bind m (fun x => k))
  (at level 61, m at next level, right associativity).

Definition save_file (path : string) (file_id : option Z) (file_part : Z)
    (progress : bool) : IO (option InputFile) :=
  fun w =>
    match save_file_replies w with
    | [] => None
    | r :: rest =>
        Some (r, {| path_exists := path_exists w;
                    input_media_from_file_id := input_media_from_file_id w;
                    save_file_replies := rest;
                    send_replies := send_replies w;
                    calls := calls w ++ [call_save_file path file_id file_part progress] |})
    end.

Definition send (media : InputMedia) : IO Updates :=
  fun w =>
    match send_replies w with
    | [] => None
    | r :: rest =>
        Some (r, {| path_exists := path_exists w;
                    input_media_from_file_id := input_media_from_file_id w;
                    save_file_replies := save_file_replies w;
                    send_replies := rest;
                    calls := calls w ++ [call_send media] |})
    end.

(** [file.id], where [file] may still be [None]. *)
Definition attr_id (file : option InputFile) : result Z :=
  match file with
  | Some f => Return (file_id f)
  | None => Raise (AttributeError "id")
  end.

(** The [for i in r.updates] of the [else] clause: the first update of one
    of the three kinds is parsed and returned. *)
Fixpoint first_new_message (us : list Update) (r : Updates) : option Message :=
  match us with
  | [] => None
  | UpdateNewMessage m :: _ =>
      Some {| parsed_message := m; parsed_users := users r;
              parsed_chats := chats r; is_scheduled := false |}
  | UpdateNewChannelMessage m :: _ =>
      Some {| parsed_message := m; parsed_users := users r;
              parsed_chats := chats r; is_scheduled := false |}
  | UpdateNewScheduledMessage m :: _ =>
      Some {| parsed_message := m; parsed_users := users r;
              parsed_chats := chats r; is_scheduled := true |}
  | UpdateOther :: us' => first_new_message us' r
  end.

(** Lines 145-172, [while True].  Every turn takes one reply of [send], so
    the turns are bounded by the replies the world holds. *)
Fixpoint send_loop (turns : nat) (video_note : string)
    (file : option InputFile) (media : InputMedia) : IO (option Message) :=
  fun w =>
    match turns with
    | O => None
    | S turns' =>
        match send media w with
        | None => None
        | Some (Raise (FilePartMissing x), w1) =>
            (id <~ io_lift (attr_id file) ;;
             _ <~ save_file video_note (Some id) x false ;;
             send_loop turns' video_note file media) w1
        | Some (Raise e, w1) => Some (Raise e, w1)
        | Some (Return r, w1) =>
            match first_new_message (updates r) r with
            | Some m => Some (Return (Some m), w1)
            | None => send_loop turns' video_note file media w1
            end
        end
    end.

(** Lines 125-172, the body of the outer [try]. *)
Definition send_video_note_try (video_note : string) (thumb : option string)
    : IO (option Message) :=
  fun w =>
    (if path_exists w video_note then
       thumb' <~ match thumb with
                 | None => io_ret None
                 | Some t => save_file t None 0 false
                 end ;;
       file <~ save_file video_note None 0 true ;;
       fun w' =>
         send_loop (S (List.length (send_replies w'))) video_note file
           (InputMediaUploadedDocument file thumb') w'
     else
       media <~ io_lift (input_media_from_file_id w video_note 13) ;;
       fun w' =>
         send_loop (S (List.length (send_replies w'))) video_note None
           media w') w.

(** [except BaseClient.StopTransmission: return None]. *)
Definition except_StopTransmission {A : Type} (m : IO (option A))
    : IO (option A) :=
  fun w =>
    match m w with
    | Some (Raise StopTransmission, w') => Some (Return None, w')
    | other => other
    end.

Definition send_video_note (video_note : string) (thumb : option string)
    : IO (option Message) :=
  except_StopTransmission (send_video_note_try video_note thumb).

(** ** The identifiers of the specification *)

(** The three variants, with every field that is written into the blob:
    also those the decoder skips. *)
Inductive MediaIdentifier : Type :=
| PhotoLike (i_dc_id i_photo_id i_skipped1 i_volume_id : Z) (i_is_big : bool)
    (i_peer_id i_skipped2 i_peer_access_hash i_local_id : Z)
| DocumentWithThumb (i_tag i_dc_id i_document_id i_access_hash i_volume_id
    i_thumb_size i_local_id : Z)
| DocumentPlain (i_tag i_dc_id i_document_id i_access_hash : Z).

Definition encode_blob (x : MediaIdentifier) : result bytes :=
  match x with
  | PhotoLike dc ph s1 vol big peer s2 pah loc =>
      pack_photo_like dc ph s1 vol big peer s2 pah loc
  | DocumentWithThumb tag dc doc ah vol thumb loc =>
      pack_with_thumb tag dc doc ah vol thumb loc
  | DocumentPlain tag dc doc ah => pack_document tag dc doc ah
  end.

(** The tag belongs to the variant, every integer fits its field, and the
    thumbnail code is the code point of a character. *)
Definition valid_identifier (x : MediaIdentifier) : bool :=
  match x with
  | PhotoLike dc ph s1 vol big peer s2 pah loc =>
      in_range c_i dc && in_range c_q ph && in_range c_q s1
      && in_range c_q vol && in_range c_i peer && in_range c_i s2
      && in_range c_q pah && in_range c_i loc
  | DocumentWithThumb tag dc doc ah vol thumb loc =>
      in_tuple tag [0; 2; 14] && in_range c_i dc && in_range c_q doc
      && in_range c_q ah && in_range c_q vol
      && ((0 <=? thumb) && (thumb <? 1114112)) && in_range c_i loc
  | DocumentPlain tag dc doc ah =>
      in_tuple tag [3; 4; 5; 8; 9; 10; 13] && in_range c_i dc
      && in_range c_q doc && in_range c_q ah
  end.

(** The [FileData] that carries the fields of [x] the decoder keeps, next
    to the attributes of [data] that the decoder carries over. *)
Definition FileData_of_identifier (x : MediaIdentifier) (data : FileData)
    : FileData :=
  match x with
  | PhotoLike dc ph s1 vol big peer s2 pah loc =>
      {| media_type := Some 1; dc_id := Some dc; document_id := None;
         access_hash := None; thumb_size := None; peer_id := Some peer;
         peer_access_hash := Some pah; volume_id := Some vol;
         local_id := Some loc; is_big := Some big;
         file_size := file_size data; mime_type := mime_type data;
         file_name := file_name data; date := date data |}
  | DocumentWithThumb tag dc doc ah vol thumb loc =>
      {| media_type := Some tag; dc_id := Some dc; document_id := Some doc;
         access_hash := Some ah; thumb_size := Some thumb; peer_id := None;
         peer_access_hash := None; volume_id := None; local_id := None;
         is_big := None;
         file_size := file_size data; mime_type := mime_type data;
         file_name := file_name data; date := date data |}
  | DocumentPlain tag dc doc ah =>
      {| media_type := Some tag; dc_id := Some dc; document_id := Some doc;
         access_hash := Some ah; thumb_size := None; peer_id := None;
         peer_access_hash := None; volume_id := None; local_id := None;
         is_big := None;
         file_size := file_size data; mime_type := mime_type data;
         file_name := file_name data; date := date data |}
  end.

(** ** The layouts by byte offset *)

Definition photo_like_view (blob : bytes) (data : FileData) : FileData :=
  {| media_type := Some 1;
     dc_id := Some (field 4 4 blob);
     document_id := None; access_hash := None; thumb_size := None;
     peer_id := Some (field 4 36 blob);
     peer_access_hash := Some (field 8 44 blob);
     volume_id := Some (field 8 24 blob);
     local_id := Some (field 4 52 blob);
     is_big := Some (field 4 32 blob =? 3);
     file_size := file_size data; mime_type := mime_type data;
     file_name := file_name data; date := date data |}.

Definition with_thumb_view (tag : Z) (blob : bytes) (data : FileData)
    : FileData :=
  {| media_type := Some tag;
     dc_id := Some (field 4 4 blob);
     document_id := Some (field 8 8 blob);
     access_hash := Some (field 8 16 blob);
     thumb_size := Some (field 4 40 blob);
     peer_id := None; peer_access_hash := None; volume_id := None;
     local_id := None; is_big := None;
     file_size := file_size data; mime_type := mime_type data;
     file_name := file_name data; date := date data |}.

Definition plain_view (tag : Z) (blob : bytes) (data : FileData) : FileData :=
  {| media_type := Some tag;
     dc_id := Some (field 4 4 blob);
     document_id := Some (field 8 8 blob);
     access_hash := Some (field 8 16 blob);
     thumb_size := None;
     peer_id := None; peer_access_hash := None; volume_id := None;
     local_id := None; is_big := None;
     file_size := file_size data; mime_type := mime_type data;
     file_name := file_name data; date := date data |}.

(** What the decoder answers on a non-empty blob, layout by layout. *)
Definition decode_by_layout (file_id_str : string) (blob : bytes)
    (data : FileData) : result FileData :=
  match blob with
  | [] => Raise IndexError
  | b :: _ =>
      let tag := byte_to_Z b in
      match layout_of_byte tag with
      | None => Raise (ValueError (unknown_media_type file_id_str))
      | Some fmt =>
          if negb (Nat.eqb (List.length blob) (calcsize fmt))
          then Raise FileIdInvalid
          else if tag =? 1 then Return (photo_like_view blob data)
          else if in_tuple tag [0; 2; 14] then
            if (0 <=? field 4 40 blob) && (field 4 40 blob <? 1114112)
            then Return (with_thumb_view tag blob data)
            else Raise (ValueError chr_error)
          else Return (plain_view tag blob data)
      end
  end.

(** The default extension of each kind that has one. *)
Definition default_extension (mt : Z) : string :=
  if mt =? 3 then ".ogg"
  else if in_tuple mt [4; 10; 13] then ".mp4"
  else if mt =? 5 then ".zip"
  else if mt =? 8 then ".webp"
  else ".mp3".

(** ** An instance of the collaborators *)

(** Modelled from the spec: [ext.utils.encode] and [ext.utils.decode] are
    not among the files followed here.  By the spec a file id is a blob
    under an outer encoding that carries an integrity check, and a failed
    check is a structural error.  This instance writes the blob as text,
    byte for byte, and closes it with the check byte 2; the decoder asserts
    that the last byte is the check byte and drops it. *)
Definition framing_encode (blob : bytes) : string :=
  string_of_list_ascii (map ascii_of_byte (blob ++ [x02])).

Definition framing_decode (s : string) : result bytes :=
  match rev (map byte_of_ascii (list_ascii_of_string s)) with
  | [] => Raise IndexError
  | x02 :: body => Return (rev body)
  | _ => Raise AssertionError
  end.

(** Modelled from the spec: the table of media-kind labels, one label per
    known tag. *)
Definition sample_MEDIA_TYPE_ID (mt : Z) : option string :=
  if mt =? 0 then Some "photo_thumbnail"
  else if mt =? 1 then Some "chat_photo"
  else if mt =? 2 then Some "photo"
  else if mt =? 3 then Some "voice"
  else if mt =? 4 then Some "video"
  else if mt =? 5 then Some "document"
  else if mt =? 8 then Some "sticker"
  else if mt =? 9 then Some "audio"
  else if mt =? 10 then Some "animation"
  else if mt =? 13 then Some "video_note"
  else if mt =? 14 then Some "document_thumbnail"
  else None.

Definition sample_guess_extension (mime : option string) : option string :=
  match mime with
  | Some m => if String.eqb m "application/pdf" then Some ".pdf" else None
  | None => None
  end.

Definition sample_client : BaseClient :=
  {| utils_decode := framing_decode;
     utils_encode := framing_encode;
     MEDIA_TYPE_ID := sample_MEDIA_TYPE_ID;
     guess_extension := sample_guess_extension;
     parent_join := fun d => String.append "/home/user/" d;
     strftime := fun _ => "2019-01-01_00-00-00" |}.

(** A photo-like blob of the right length whose tag word is 257, and its
    first four bytes alone. *)
Definition blob_257 : bytes := [x01; x01; x00; x00] ++ repeat x00 52.
Definition blob_257_short : bytes := [x01; x01; x00; x00].

(** A thumbnailed-document blob whose thumbnail field is -1. *)
Definition blob_thumb_minus_one : bytes :=
  [x02; x00; x00; x00] ++ repeat x00 36 ++ [xff; xff; xff; xff]
    ++ repeat x00 4.

(** A document that carries its own file name. *)
Definition named_document : Media :=
  {| m_file_id := framing_encode ([x05; x00; x00; x00] ++ repeat x00 20);
     m_file_name := Some "report";
     m_file_size := Some 1024;
     m_file_reference := [];
     m_mime_type := Some "application/pdf";
     m_date := Some 1546300800 |}.

Definition empty_client : Client := {| download_queue := []; cells := [] |}.

Definition sample_world (saves : list (result (option InputFile)))
    (sends : list (result Updates)) : World :=
  {| path_exists := fun _ => true;
     input_media_from_file_id := fun s t => Return (InputMediaDocument s t);
     save_file_replies := saves;
     send_replies := sends;
     calls := [] |}.

(** A thumbnailed-document blob of the right length whose thumbnail field,
    the 32-bit field at offset 40, is no code point. *)
Definition thumb_out_of_range (blob : bytes) : Prop :=
  (exists t, getitem0 blob = Return t /\ In t [0; 2; 14])
  /\ List.length blob = 48%nat
  /\ (field 4 40 blob < 0 \/ 1114111 < field 4 40 blob).

(** ** [Photo._parse] *)

Record FileLocation : Type := mkFileLocation {
  loc_volume_id : Z;
  loc_local_id : Z
}.

(** A [types.PhotoSize]; [type] is a one-character string, kept as its
    code point. *)
Record PhotoSize : Type := mkPhotoSize {
  size_type : Z;
  size_location : FileLocation;
  size_w : Z;
  size_h : Z;
  size_size : Z
}.

(** The argument of [Photo._parse]: a [types.Photo] or anything else. *)
Inductive types_Photo : Type :=
| raw_Photo (r_id r_access_hash : Z) (r_file_reference : bytes)
    (r_date r_dc_id : Z) (r_sizes : list PhotoSize)
| raw_PhotoEmpty (r_id : Z).

(** The [Photo] object, without [thumbs] ([Thumbnail._parse] is not among
    the files followed here). *)
Record Photo : Type := mkPhoto {
  photo_file_id : string;
  photo_width : Z;
  photo_height : Z;
  photo_file_size : Z;
  photo_file_reference : bytes;
  photo_date : Z
}.

(** [l[-1]]. *)
Definition getitem_last {A : Type} (l : list A) : result A :=
  match l with
  | [] => Raise IndexError
  | x :: l' => Return (last l' x)
  end.

(** photo.py, lines 76-97. *)
Definition Photo_parse (self : BaseClient) (photo : types_Photo)
    : result (option Photo) :=
  match photo with
  | raw_Photo r_id r_access_hash r_file_reference r_date r_dc_id r_sizes =>
      big <- getitem_last r_sizes ;;
      fid <- Photo_parse_file_id self r_dc_id r_id r_access_hash
               (loc_volume_id (size_location big)) (size_type big)
               (loc_local_id (size_location big)) ;;
      Return (Some {| photo_file_id := fid;
                      photo_width := size_w big;
                      photo_height := size_h big;
                      photo_file_size := size_size big;
                      photo_file_reference := r_file_reference;
                      photo_date := r_date |})
  | raw_PhotoEmpty _ => Return None
  end.

(** What the [getattr] calls of [download_media] see of a [Photo]: it has
    neither [file_name] nor [mime_type]. *)
Definition Media_of_Photo (p : Photo) : Media :=
  {| m_file_id := photo_file_id p;
     m_file_name := Some "";
     m_file_size := Some (photo_file_size p);
     m_file_reference := photo_file_reference p;
     m_mime_type := None;
     m_date := Some (photo_date p) |}.

(** ** [Sticker._parse] *)

Inductive InputStickerSet : Type :=
| InputStickerSetID (set_id set_access_hash : Z)
| InputStickerSetOther.

Record types_Document : Type := mkDocument {
  doc_id : Z;
  doc_access_hash : Z;
  doc_dc_id : Z;
  doc_mime_type : string;
  doc_size : Z;
  doc_date : Z
}.

Record DocumentAttributeImageSize : Type := mkImageSize {
  img_w : Z;
  img_h : Z
}.

Record DocumentAttributeSticker : Type := mkAttributeSticker {
  alt : string;
  stickerset : InputStickerSet
}.

Record Sticker : Type := mkSticker {
  sticker_file_id : string;
  sticker_width : Z;
  sticker_height : Z;
  sticker_is_animated : bool;
  sticker_file_name : option string;
  sticker_mime_type : string;
  sticker_file_size : Z;
  sticker_date : Z;
  sticker_emoji : option string;
  sticker_set_name : option string
}.

Definition StickersetInvalid_name : string := "STICKERSET_INVALID".

(** The key of [lru_cache] for [_get_sticker_set_name(send, id)]: the
    bound method [client.send], identified by its client, and the pair
    [(id, access_hash)]. *)
Definition lru_key : Type := (nat * (Z * Z))%type.

Definition lru_key_eqb (a b : lru_key) : bool :=
  Nat.eqb (fst a) (fst b)
  && Z.eqb (fst (snd a)) (fst (snd b))
  && Z.eqb (snd (snd a)) (snd (snd b)).

Definition lru_maxsize : nat := 256.

(** The cache, most recently used entry first. *)
Definition lru_cache : Type := list (lru_key * option string).

Fixpoint cache_find (k : lru_key) (c : lru_cache) : option (option string) :=
  match c with
  | [] => None
  | (k', v) :: c' => if lru_key_eqb k k' then Some v else cache_find k c'
  end.

Fixpoint cache_remove (k : lru_key) (c : lru_cache) : lru_cache :=
  match c with
  | [] => []
  | (k', v) :: c' =>
      if lru_key_eqb k k' then c' else (k', v) :: cache_remove k c'
  end.

(** A hit moves the entry to the front. *)
Definition lru_touch (k : lru_key) (v : option string) (c : lru_cache)
    : lru_cache :=
  (k, v) :: cache_remove k c.

(** A miss stores the result at the front; a full cache drops its least
    recently used entry. *)
Definition lru_store (k : lru_key) (v : option string) (c : lru_cache)
    : lru_cache :=
  (k, v) :: (if Nat.leb lru_maxsize (List.length c) then removelast c else c).

(** The world of [_get_sticker_set_name]: the answers to the next
    [GetStickerSet] requests (the short name, or an error), the cache, and
    the requests made so far. *)
Record StickerWorld : Type := mkStickerWorld {
  sticker_set_replies : list (result string);
  name_cache : lru_cache;
  sticker_set_requests : list (Z * Z)
}.

Definition SIO (A : Type) : Type :=
  StickerWorld -> option (result A * StickerWorld).

(** sticker.py, lines 104-115, without the decorator. *)
Definition get_sticker_set_name_body (input_sticker_set_id : Z * Z)
    : SIO (option string) :=
  fun w =>
    match sticker_set_replies w with
    | [] => None
    | r :: rest =>
        let w' :=
          {| sticker_set_replies := rest;
             name_cache := name_cache w;
             sticker_set_requests :=
               sticker_set_requests w ++ [input_sticker_set_id] |} in
        match r with
        | Return short_name => Some (Return (Some short_name), w')
        | Raise (RPCError name) =>
            if String.eqb name StickersetInvalid_name
            then Some (Return None, w')
            else Some (Raise (RPCError name), w')
        | Raise e => Some (Raise e, w')
        end
    end.

(** sticker.py, lines 102-115, under [lru_cache(maxsize=256)]: a raised
    exception is not stored. *)
Definition Sticker_get_sticker_set_name (client : nat)
    (input_sticker_set_id : Z * Z) : SIO (option string) :=
  fun w =>
    let k := (client, input_sticker_set_id) in
    match cache_find k (name_cache w) with
    | Some v =>
        Some (Return v,
              {| sticker_set_replies := sticker_set_replies w;
                 name_cache := lru_touch k v (name_cache w);
                 sticker_set_requests := sticker_set_requests w |})
    | None =>
        match get_sticker_set_name_body input_sticker_set_id w with
        | Some (Return v, w') =>
            Some (Return v,
                  {| sticker_set_replies := sticker_set_replies w';
                     name_cache := lru_store k v (name_cache w');
                     sticker_set_requests := sticker_set_requests w' |})
        | other => other
        end
    end.

(** sticker.py, lines 128-149: the object, once the set name is known. *)
Definition Sticker_build (self : BaseClient) (set_name : option string)
    (sticker : types_Document)
    (image_size_attributes : option DocumentAttributeImageSize)
    (sticker_attributes : DocumentAttributeSticker)
    (name : option string) : result Sticker :=
  fid <- Sticker_parse_file_id self (doc_dc_id sticker) (doc_id sticker)
           (doc_access_hash sticker) ;;
  Return {| sticker_file_id := fid;
            sticker_width :=
              match image_size_attributes with
              | Some a => img_w a
              | None => 512
              end;
            sticker_height :=
              match image_size_attributes with
              | Some a => img_h a
              | None => 512
              end;
            sticker_is_animated :=
              String.eqb (doc_mime_type sticker) "application/x-tgsticker";
            sticker_file_name := name;
            sticker_mime_type := doc_mime_type sticker;
            sticker_file_size := doc_size sticker;
            sticker_date := doc_date sticker;
            sticker_emoji :=
              match alt sticker_attributes with
              | EmptyString => None
              | s => Some s
              end;
            sticker_set_name := set_name |}.

(** sticker.py, lines 117-149. *)
Definition Sticker_parse (self : BaseClient) (client : nat)
    (sticker : types_Document)
    (image_size_attributes : option DocumentAttributeImageSize)
    (sticker_attributes : DocumentAttributeSticker)
    (name : option string) : SIO Sticker :=
  fun w =>
    let looked_up :=
      match stickerset sticker_attributes with
      | InputStickerSetID set_id set_access_hash =>
          Sticker_get_sticker_set_name client (set_id, set_access_hash) w
      | InputStickerSetOther => Some (Return None, w)
      end in
    match looked_up with
    | None => None
    | Some (Raise e, w') => Some (Raise e, w')
    | Some (Return set_name, w') =>
        Some (Sticker_build self set_name sticker image_size_attributes
                sticker_attributes name, w')
    end.

Definition Media_of_Sticker (s : Sticker) : Media :=
  {| m_file_id := sticker_file_id s;
     m_file_name := sticker_file_name s;
     m_file_size := Some (sticker_file_size s);
     m_file_reference := [];
     m_mime_type := Some (sticker_mime_type s);
     m_date := Some (sticker_date s) |}.

(** ** Turns of the send loop that end in another [send] *)

Inductive retry : Type :=
| retry_missing (part : Z) (saved : option InputFile)
| retry_no_message (r : Updates).

Definition retry_send_reply (t : retry) : result Updates :=
  match t with
  | retry_missing part _ => Raise (FilePartMissing part)
  | retry_no_message r => Return r
  end.

Definition retry_save_replies (t : retry)
    : list (result (option InputFile)) :=
  match t with
  | retry_missing _ saved => [Return saved]
  | retry_no_message _ => []
  end.

Definition retry_calls (video_note : string) (id : Z) (media : InputMedia)
    (t : retry) : list call :=
  match t with
  | retry_missing part _ =>
      [call_send media; call_save_file video_note (Some id) part false]
  | retry_no_message _ => [call_send media]
  end.

Definition retry_is_one (t : retry) : Prop :=
  match t with
  | retry_missing _ _ => True
  | retry_no_message r => first_new_message (updates r) r = None
  end.

Definition is_call_send (c : call) : Prop :=
  match c with
  | call_send _ => True
  | call_save_file _ _ _ _ => False
  end.

(** * Properties *)

(** ** Little-endian integers *)

Lemma byte_to_Z_range (b : byte) : 0 <= byte_to_Z b < 256.
Proof.
  unfold byte_to_Z. pose proof (Byte.to_N_bounded b) as H.
  split; [apply N2Z.is_nonneg | lia].
Qed.

Lemma byte_to_Z_of_Z (z : Z) : byte_to_Z (byte_of_Z z) = z mod 256.
Proof.
  unfold byte_of_Z, byte_to_Z.
  assert (Hb : 0 <= z mod 256 < 256) by (apply Z.mod_pos_bound; lia).
  destruct (Byte.of_N (Z.to_N (z mod 256))) as [b|] eqn:E.
  - apply Byte.to_of_N in E. rewrite E. rewrite Z2N.id; lia.
  - apply Byte.of_N_None_iff in E. lia.
Qed.

Lemma length_le_bytes (w : nat) (z : Z) : List.length (le_bytes w z) = w.
Proof.
  revert z. induction w as [|w IH]; intro z; simpl; [reflexivity|].
  now rewrite IH.
Qed.

Lemma le_unsigned_le_bytes (w : nat) (z : Z) :
  le_unsigned (le_bytes w z) = z mod 2 ^ (8 * Z.of_nat w).
Proof.
  revert z. induction w as [|w IH]; intro z.
  - simpl. now rewrite Z.mod_1_r.
  - cbn [le_bytes le_unsigned]. rewrite byte_to_Z_of_Z, IH.
    replace (8 * Z.of_nat (S w)) with (8 + 8 * Z.of_nat w) by lia.
    rewrite Z.pow_add_r by lia.
    change (2 ^ 8) with 256.
    rewrite Z.rem_mul_r by lia. reflexivity.
Qed.

Lemma to_signed_mod (w : nat) (z : Z) :
  (0 < w)%nat ->
  - 2 ^ (8 * Z.of_nat w - 1) <= z < 2 ^ (8 * Z.of_nat w - 1) ->
  to_signed w (z mod 2 ^ (8 * Z.of_nat w)) = z.
Proof.
  intros Hw Hz. unfold to_signed.
  assert (Hp : 2 ^ (8 * Z.of_nat w) = 2 * 2 ^ (8 * Z.of_nat w - 1)).
  { rewrite <- Z.pow_succ_r by lia. f_equal. lia. }
  assert (Hpos : 0 < 2 ^ (8 * Z.of_nat w - 1)) by (apply Z.pow_pos_nonneg; lia).
  destruct (Z_lt_le_dec z 0) as [Hneg|Hnn].
  - assert (E : z mod 2 ^ (8 * Z.of_nat w) = z + 2 ^ (8 * Z.of_nat w)).
    { symmetry. apply Z.mod_unique_pos with (q := -1); lia. }
    rewrite E. destruct (Z.ltb_spec (z + 2 ^ (8 * Z.of_nat w))
                                    (2 ^ (8 * Z.of_nat w - 1))); lia.
  - rewrite Z.mod_small by lia.
    destruct (Z.ltb_spec z (2 ^ (8 * Z.of_nat w - 1))); lia.
Qed.

Lemma in_range_bounds (c : ctype) (v : Z) :
  in_range c v = true ->
  - 2 ^ (8 * Z.of_nat (sizeof c) - 1) <= v < 2 ^ (8 * Z.of_nat (sizeof c) - 1).
Proof.
  unfold in_range. intro H. apply andb_true_iff in H as [H1 H2].
  apply Z.leb_le in H1. apply Z.ltb_lt in H2. lia.
Qed.

Lemma le_signed_le_bytes (c : ctype) (v : Z) :
  in_range c v = true -> le_signed (sizeof c) (le_bytes (sizeof c) v) = v.
Proof.
  intro H. unfold le_signed. rewrite le_unsigned_le_bytes.
  apply to_signed_mod; [destruct c; simpl; lia | now apply in_range_bounds].
Qed.

(** ** [pack] and [unpack] *)

Lemma pack_fields_length (fmt : format) :
  forall vals bs, pack_fields fmt vals = Return bs ->
                  List.length bs = calcsize fmt.
Proof.
  induction fmt as [|c fmt IH]; intros [|v vals] bs H; simpl in H;
    try discriminate.
  - now inversion H.
  - destruct (in_range c v); [|discriminate].
    destruct (pack_fields fmt vals) as [rest|e] eqn:E; simpl in H;
      [|discriminate].
    inversion H; subst. rewrite length_app, length_le_bytes.
    simpl. f_equal. now apply IH with (vals := vals).
Qed.

Lemma unpack_fields_pack_fields (fmt : format) :
  forall vals bs, pack_fields fmt vals = Return bs ->
                  unpack_fields fmt bs = vals.
Proof.
  induction fmt as [|c fmt IH]; intros [|v vals] bs H; simpl in H;
    try discriminate.
  - reflexivity.
  - destruct (in_range c v) eqn:R; [|discriminate].
    destruct (pack_fields fmt vals) as [rest|e] eqn:E; simpl in H;
      [|discriminate].
    inversion H; subst. cbn [unpack_fields].
    rewrite firstn_app, length_le_bytes, Nat.sub_diag, firstn_O, app_nil_r.
    rewrite firstn_all2 by (rewrite length_le_bytes; lia).
    rewrite skipn_app, length_le_bytes, Nat.sub_diag, skipn_O.
    rewrite skipn_all2 by (rewrite length_le_bytes; lia).
    simpl app. rewrite le_signed_le_bytes by assumption.
    f_equal. now apply IH.
Qed.

Lemma unpack_pack (fmt : format) (vals : list Z) (bs : bytes) :
  pack fmt vals = Return bs -> unpack fmt bs = Return vals.
Proof.
  unfold pack, unpack. intro H.
  rewrite (pack_fields_length _ _ _ H), Nat.eqb_refl.
  now rewrite (unpack_fields_pack_fields _ _ _ H).
Qed.

(** ** The decoder, layout by layout *)

Ltac offsets :=
  unfold field; repeat rewrite skipn_skipn; cbn [Nat.add].

(** On a framed blob the [try] block and its [except] clause compute
    [decode_by_layout]: the sequential reading of [unpack] is the reading
    at fixed offsets. *)
Lemma download_media_decode_by_layout (self : BaseClient)
    (file_id_str : string) (blob : bytes) (data : FileData) :
  utils_decode self file_id_str = Return blob ->
  download_media_decode self file_id_str data
  = decode_by_layout file_id_str blob data.
Proof.
  intro H. unfold download_media_decode, download_media_try.
  rewrite H. cbn [bind].
  destruct blob as [|b rest]; [reflexivity|].
  unfold decode_by_layout, layout_of_byte. cbn [getitem0 bind].
  remember (b :: rest) as blob eqn:Eblob. clear Eblob H.
  remember (byte_to_Z b) as tag eqn:Etag. clear Etag.
  destruct (tag =? 1) eqn:T1.
  - apply Z.eqb_eq in T1. subst tag. unfold unpack.
    destruct (Nat.eqb (List.length blob) (calcsize fmt_iiqqqiiiqi)) eqn:L;
      [|reflexivity].
    cbn [negb bind fmt_iiqqqiiiqi unpack_fields tl sizeof].
    unfold photo_like_view. offsets. reflexivity.
  - destruct (in_tuple tag [0; 2; 14]) eqn:T2.
    + unfold unpack.
      destruct (Nat.eqb (List.length blob) (calcsize fmt_iiqqqiiii)) eqn:L;
        [|reflexivity].
      cbn [negb bind fmt_iiqqqiiii unpack_fields tl sizeof].
      unfold with_thumb_view, chr. offsets.
      destruct ((0 <=? le_signed 4 (firstn 4 (skipn 40 blob)))
                && (le_signed 4 (firstn 4 (skipn 40 blob)) <? 1114112));
        reflexivity.
    + destruct (in_tuple tag [3; 4; 5; 8; 9; 10; 13]) eqn:T3;
        [|reflexivity].
      unfold unpack.
      destruct (Nat.eqb (List.length blob) (calcsize fmt_iiqq)) eqn:L;
        [|reflexivity].
      cbn [negb bind fmt_iiqq unpack_fields tl sizeof].
      unfold plain_view. offsets. reflexivity.
Qed.

Lemma in_tuple_In (x : Z) (t : list Z) : in_tuple x t = true <-> In x t.
Proof.
  unfold in_tuple. rewrite existsb_exists. split.
  - intros [y [Hy E]]. apply Z.eqb_eq in E. now subst.
  - intro H. exists x. split; [assumption | apply Z.eqb_refl].
Qed.

(** A tag word that is one of the known tags is its own first byte. *)
Lemma tag32_known_first_byte (blob : bytes) :
  (4 <= List.length blob)%nat -> In (tag32 blob) known_tags ->
  getitem0 blob = Return (tag32 blob).
Proof.
  intros L K.
  destruct blob as [|b0 [|b1 [|b2 [|b3 rest]]]]; simpl in L; try lia.
  cbn [getitem0]. f_equal.
  unfold tag32, field, le_signed in *. cbn [skipn firstn le_unsigned] in *.
  pose proof (byte_to_Z_range b0). pose proof (byte_to_Z_range b1).
  pose proof (byte_to_Z_range b2). pose proof (byte_to_Z_range b3).
  unfold to_signed in *.
  change (2 ^ (8 * Z.of_nat 4 - 1)) with 2147483648 in *.
  change (2 ^ (8 * Z.of_nat 4)) with 4294967296 in *.
  unfold known_tags in K. cbn [In] in K.
  destruct (Z.ltb_spec
              (byte_to_Z b0 + 256 * (byte_to_Z b1 + 256 * (byte_to_Z b2
                 + 256 * (byte_to_Z b3 + 256 * 0)))) 2147483648); lia.
Qed.

Lemma layout_of_byte_known (t : Z) :
  In t known_tags <-> exists fmt, layout_of_byte t = Some fmt.
Proof.
  unfold layout_of_byte. split.
  - intro K. unfold known_tags in K. cbn [In] in K.
    destruct K as [<-|[<-|[<-|[<-|[<-|[<-|[<-|[<-|[<-|[<-|[<-|[]]]]]]]]]]]];
      cbn; eexists; reflexivity.
  - intros [fmt H].
    destruct (t =? 1) eqn:T1; [apply Z.eqb_eq in T1; subst; cbn; tauto|].
    destruct (in_tuple t [0; 2; 14]) eqn:T2.
    { apply in_tuple_In in T2. unfold known_tags. cbn [In] in *. tauto. }
    destruct (in_tuple t [3; 4; 5; 8; 9; 10; 13]) eqn:T3; [|discriminate].
    apply in_tuple_In in T3. unfold known_tags. cbn [In] in *. tauto.
Qed.

Lemma chr_error_not_unknown (s : string) : chr_error <> unknown_media_type s.
Proof. unfold chr_error, unknown_media_type. cbn. discriminate. Qed.

(** The instance of the framing gives back the blob. *)
Lemma framing_roundtrip (blob : bytes) :
  framing_decode (framing_encode blob) = Return blob.
Proof.
  unfold framing_decode, framing_encode.
  rewrite list_ascii_of_string_of_list_ascii, map_map.
  rewrite (map_ext _ (fun b => b)) by (intro b; apply byte_of_ascii_of_byte).
  rewrite map_id, rev_app_distr. cbn [rev app].
  now rewrite rev_involutive.
Qed.

(** ** Size classification of the photo-like variant *)

(** C6.  On a framed photo-like blob (first byte 1, 56 bytes) the decoder
    returns a [FileData] whose [is_big] is [True] exactly when the size
    classification, the 32-bit field at offset 32, is 3, and [False] for
    every other value of that field. *)
Theorem photo_like_is_big (self : BaseClient) (file_id_str : string)
    (blob : bytes) (data : FileData) :
  utils_decode self file_id_str = Return blob ->
  getitem0 blob = Return 1 ->
  List.length blob = 56%nat ->
  exists d,
    download_media_decode self file_id_str data = Return d
    /\ media_type d = Some 1
    /\ (field 4 32 blob = 3 -> is_big d = Some true)
    /\ (field 4 32 blob <> 3 -> is_big d = Some false).
Proof.
  intros Hdec Htag Hlen.
  rewrite (download_media_decode_by_layout _ _ _ _ Hdec).
  destruct blob as [|b rest]; [discriminate|].
  cbn [getitem0] in Htag. injection Htag as Htag.
  unfold decode_by_layout. rewrite Htag, Hlen. cbn.
  eexists. split; [reflexivity|]. cbn [media_type is_big photo_like_view].
  split; [reflexivity|]. split; intro H.
  - now rewrite H.
  - apply Z.eqb_neq in H. now rewrite H.
Qed.

Lemma photo_like_is_big_witness :
  utils_decode sample_client (framing_encode blob_257) = Return blob_257
  /\ getitem0 blob_257 = Return 1
  /\ List.length blob_257 = 56%nat
  /\ exists d,
       download_media_decode sample_client (framing_encode blob_257)
         (FileData_of_attributes None None None None) = Return d
       /\ media_type d = Some 1
       /\ (field 4 32 blob_257 = 3 -> is_big d = Some true)
       /\ (field 4 32 blob_257 <> 3 -> is_big d = Some false).
Proof.
  split; [apply framing_roundtrip|].
  split; [reflexivity|]. split; [reflexivity|].
  apply (photo_like_is_big sample_client (framing_encode blob_257) blob_257);
    [apply framing_roundtrip | reflexivity | reflexivity].
Defined.

(** ** Short blobs *)

(** C4.  A framed blob that is shorter than the layout of its tag is
    refused with [FileIdInvalid].  The tag [t] is the first byte, which is
    what the decoder dispatches on, or the 32-bit tag word when the blob
    has one and it is a known tag. *)
Theorem short_blob_is_invalid (self : BaseClient) (file_id_str : string)
    (blob : bytes) (data : FileData) (t : Z) (fmt : format) :
  utils_decode self file_id_str = Return blob ->
  getitem0 blob = Return t
  \/ ((4 <= List.length blob)%nat /\ tag32 blob = t /\ In t known_tags) ->
  layout_of_byte t = Some fmt ->
  (List.length blob < calcsize fmt)%nat ->
  download_media_decode self file_id_str data = Raise FileIdInvalid.
Proof.
  intros Hdec Htag Hlay Hlen.
  assert (Hb : getitem0 blob = Return t).
  { destruct Htag as [H|[L [E K]]]; [assumption|].
    subst t. now apply tag32_known_first_byte. }
  rewrite (download_media_decode_by_layout _ _ _ _ Hdec).
  destruct blob as [|b rest]; [discriminate|].
  cbn [getitem0] in Hb. injection Hb as Hb.
  unfold decode_by_layout. rewrite Hb, Hlay.
  destruct (Nat.eqb_spec (List.length (b :: rest)) (calcsize fmt)) as [E|E];
    [lia | reflexivity].
Qed.

Lemma short_blob_is_invalid_witness :
  utils_decode sample_client (framing_encode [x08; x00; x00; x00; x01])
  = Return [x08; x00; x00; x00; x01]
  /\ (getitem0 [x08; x00; x00; x00; x01] = Return 8
      \/ ((4 <= List.length [x08; x00; x00; x00; x01])%nat
          /\ tag32 [x08; x00; x00; x00; x01] = 8 /\ In 8 known_tags))
  /\ layout_of_byte 8 = Some fmt_iiqq
  /\ (List.length [x08; x00; x00; x00; x01] < calcsize fmt_iiqq)%nat
  /\ download_media_decode sample_client
       (framing_encode [x08; x00; x00; x00; x01])
       (FileData_of_attributes None None None None) = Raise FileIdInvalid.
Proof.
  split; [apply framing_roundtrip|].
  split; [left; reflexivity|]. split; [reflexivity|].
  split; [simpl; lia|].
  apply (short_blob_is_invalid sample_client _ [x08; x00; x00; x00; x01] _ 8
           fmt_iiqq);
    [apply framing_roundtrip | left; reflexivity | reflexivity | simpl; lia].
Defined.

(** ** Thumbnail codes that are no character *)

(** C10.  There is a framed thumbnailed-document blob whose thumbnail
    field is outside the range of code points, and on every such blob the
    decoder raises the [ValueError] of [chr]: neither [FileIdInvalid] nor
    the [ValueError] of the unknown media type. *)
Theorem thumb_code_escapes_translation :
  (exists blob, thumb_out_of_range blob)
  /\ (forall (self : BaseClient) (file_id_str : string) (blob : bytes)
             (data : FileData),
        utils_decode self file_id_str = Return blob ->
        thumb_out_of_range blob ->
        download_media_decode self file_id_str data
        = Raise (ValueError chr_error)
        /\ ValueError chr_error <> FileIdInvalid
        /\ ValueError chr_error
           <> ValueError (unknown_media_type file_id_str)).
Proof.
  split.
  - exists blob_thumb_minus_one. unfold thumb_out_of_range.
    split; [exists 2; split; [reflexivity | cbn; tauto]|].
    split; [reflexivity|]. left. vm_compute. reflexivity.
  - intros self file_id_str blob data Hdec [[t [Ht Hin]] [Hlen Hcode]].
    split; [|split; [discriminate|]].
    + rewrite (download_media_decode_by_layout _ _ _ _ Hdec).
      destruct blob as [|b rest]; [discriminate|].
      cbn [getitem0] in Ht. injection Ht as Ht.
      unfold decode_by_layout. rewrite Ht.
      assert (Hlay : layout_of_byte t = Some fmt_iiqqqiiii).
      { cbn [In] in Hin. destruct Hin as [<-|[<-|[<-|[]]]]; reflexivity. }
      rewrite Hlay, Hlen. cbn [calcsize fmt_iiqqqiiii sizeof Nat.add Nat.eqb negb].
      assert (T1 : (t =? 1) = false).
      { cbn [In] in Hin. destruct Hin as [<-|[<-|[<-|[]]]]; reflexivity. }
      rewrite T1. apply in_tuple_In in Hin. rewrite Hin.
      destruct (Z.leb_spec 0 (field 4 40 (b :: rest)));
        destruct (Z.ltb_spec (field 4 40 (b :: rest)) 1114112);
        cbn [andb]; try reflexivity; lia.
    + intro H. apply (chr_error_not_unknown file_id_str). congruence.
Qed.

Lemma thumb_code_escapes_translation_witness :
  utils_decode sample_client (framing_encode blob_thumb_minus_one)
  = Return blob_thumb_minus_one
  /\ field 4 40 blob_thumb_minus_one = -1
  /\ download_media_decode sample_client
       (framing_encode blob_thumb_minus_one)
       (FileData_of_attributes None None None None)
     = Raise (ValueError chr_error).
Proof.
  split; [apply framing_roundtrip|]. split; [vm_compute; reflexivity|].
  apply (proj2 thumb_code_escapes_translation sample_client
           (framing_encode blob_thumb_minus_one) blob_thumb_minus_one).
  - apply framing_roundtrip.
  - unfold thumb_out_of_range.
    split; [exists 2; split; [reflexivity | cbn; tauto]|].
    split; [reflexivity|]. left. vm_compute. reflexivity.
Defined.

(** ** The tag and the layouts *)

Lemma layout_of_byte_unknown (t : Z) :
  ~ In t known_tags -> layout_of_byte t = None.
Proof.
  intro K. destruct (layout_of_byte t) as [fmt|] eqn:E; [|reflexivity].
  elim K. apply layout_of_byte_known. now exists fmt.
Qed.

(** The tag word of [blob_257] is none of the known tags, and the blob is
    decoded with the photo-like layout all the same. *)
Lemma tag_word_257_decodes_as_photo_like :
  tag32 blob_257 = 257
  /\ ~ In 257 known_tags
  /\ utils_decode sample_client (framing_encode blob_257) = Return blob_257
  /\ download_media_decode sample_client (framing_encode blob_257)
       (FileData_of_attributes None None None None)
     = Return {| media_type := Some 1; dc_id := Some 0;
                 document_id := None; access_hash := None;
                 thumb_size := None; peer_id := Some 0;
                 peer_access_hash := Some 0; volume_id := Some 0;
                 local_id := Some 0; is_big := Some false;
                 file_size := None; mime_type := None; file_name := None;
                 date := None |}.
Proof.
  split; [vm_compute; reflexivity|].
  split; [unfold known_tags; cbn [In]; lia|].
  split; [apply framing_roundtrip|].
  vm_compute. reflexivity.
Qed.

(** C2, amended.  The layout is selected by the first byte of the framed
    blob, not by its 32-bit tag word: byte 1 selects the photo-like layout,
    bytes 0, 2, 14 the layout with a thumbnail code, bytes 3, 4, 5, 8, 9,
    10, 13 the plain one.  A blob of the length of its layout is read at
    the fixed offsets of that layout (or, with a thumbnail code that is no
    character, refused by [chr]); a blob of another length is refused with
    [FileIdInvalid]; every other first byte is refused with the
    [ValueError] of the unknown media type. *)
Theorem first_byte_selects_layout (self : BaseClient) (file_id_str : string)
    (b : byte) (rest : bytes) (data : FileData) :
  utils_decode self file_id_str = Return (b :: rest) ->
  let blob := b :: rest in
  let t := byte_to_Z b in
  let decoded := download_media_decode self file_id_str data in
  (t = 1 ->
     layout_of_byte t = Some fmt_iiqqqiiiqi
     /\ (List.length blob = 56%nat ->
         decoded = Return (photo_like_view blob data)))
  /\ (In t [0; 2; 14] ->
        layout_of_byte t = Some fmt_iiqqqiiii
        /\ (List.length blob = 48%nat ->
            (0 <= field 4 40 blob < 1114112 ->
             decoded = Return (with_thumb_view t blob data))
            /\ (~ 0 <= field 4 40 blob < 1114112 ->
                decoded = Raise (ValueError chr_error))))
  /\ (In t [3; 4; 5; 8; 9; 10; 13] ->
        layout_of_byte t = Some fmt_iiqq
        /\ (List.length blob = 24%nat ->
            decoded = Return (plain_view t blob data)))
  /\ (forall fmt, layout_of_byte t = Some fmt ->
        List.length blob <> calcsize fmt ->
        decoded = Raise FileIdInvalid)
  /\ (~ In t known_tags ->
        layout_of_byte t = None
        /\ decoded = Raise (ValueError (unknown_media_type file_id_str))).
Proof.
  intros Hdec blob t decoded. subst decoded.
  rewrite (download_media_decode_by_layout _ _ _ _ Hdec).
  unfold decode_by_layout. fold blob. fold t.
  change (match blob with [] => Raise IndexError | b0 :: _ => ?k b0 end)
    with (k b).
  repeat split.
  - now subst t; rewrite H.
  - intro L. rewrite H. cbn [layout_of_byte Z.eqb]. rewrite L. reflexivity.
  - cbn [In] in H. destruct H as [<-|[<-|[<-|[]]]]; reflexivity.
  - intros R.
    assert (Hlay : layout_of_byte t = Some fmt_iiqqqiiii)
      by (cbn [In] in H; destruct H as [<-|[<-|[<-|[]]]]; reflexivity).
    assert (T1 : (t =? 1) = false)
      by (cbn [In] in H; destruct H as [<-|[<-|[<-|[]]]]; reflexivity).
    rewrite Hlay, H0, T1. apply in_tuple_In in H. rewrite H. cbn.
    destruct (Z.leb_spec 0 (field 4 40 blob));
      destruct (Z.ltb_spec (field 4 40 blob) 1114112);
      cbn [andb]; try reflexivity; lia.
  - intros R.
    assert (Hlay : layout_of_byte t = Some fmt_iiqqqiiii)
      by (cbn [In] in H; destruct H as [<-|[<-|[<-|[]]]]; reflexivity).
    assert (T1 : (t =? 1) = false)
      by (cbn [In] in H; destruct H as [<-|[<-|[<-|[]]]]; reflexivity).
    rewrite Hlay, H0, T1. apply in_tuple_In in H. rewrite H. cbn.
    destruct (Z.leb_spec 0 (field 4 40 blob));
      destruct (Z.ltb_spec (field 4 40 blob) 1114112);
      cbn [andb]; try reflexivity; lia.
  - cbn [In] in H.
    destruct H as [<-|[<-|[<-|[<-|[<-|[<-|[<-|[]]]]]]]]; reflexivity.
  - intro L.
    assert (Hlay : layout_of_byte t = Some fmt_iiqq)
      by (cbn [In] in H;
          destruct H as [<-|[<-|[<-|[<-|[<-|[<-|[<-|[]]]]]]]]; reflexivity).
    assert (T1 : (t =? 1) = false)
      by (cbn [In] in H;
          destruct H as [<-|[<-|[<-|[<-|[<-|[<-|[<-|[]]]]]]]]; reflexivity).
    assert (T2 : in_tuple t [0; 2; 14] = false)
      by (cbn [In] in H;
          destruct H as [<-|[<-|[<-|[<-|[<-|[<-|[<-|[]]]]]]]]; reflexivity).
    rewrite Hlay, L, T1, T2. reflexivity.
  - intros fmt Hlay L. rewrite Hlay.
    destruct (Nat.eqb_spec (List.length blob) (calcsize fmt)); [lia|].
    reflexivity.
  - now apply layout_of_byte_unknown.
  - now rewrite (layout_of_byte_unknown _ H).
Qed.

Lemma first_byte_selects_layout_witness :
  utils_decode sample_client (framing_encode blob_257) = Return blob_257
  /\ download_media_decode sample_client (framing_encode blob_257)
       (FileData_of_attributes None None None None)
     = Return (photo_like_view blob_257
                 (FileData_of_attributes None None None None)).
Proof.
  split; [apply framing_roundtrip|].
  apply (first_byte_selects_layout sample_client (framing_encode blob_257)
           x01 ([x01; x00; x00] ++ repeat x00 52)
           (FileData_of_attributes None None None None)
           (framing_roundtrip blob_257));
    reflexivity.
Defined.

(** ** Unknown tags *)

(** The tag word of [blob_257_short] is none of the known tags, and the
    blob is refused with [FileIdInvalid]; and the error of an unknown first
    byte carries the file id, not the tag. *)
Lemma tag_word_257_short_is_invalid :
  (tag32 blob_257_short = 257
   /\ ~ In 257 known_tags
   /\ utils_decode sample_client (framing_encode blob_257_short)
      = Return blob_257_short
   /\ download_media_decode sample_client (framing_encode blob_257_short)
        (FileData_of_attributes None None None None)
      = Raise FileIdInvalid)
  /\ (tag32 [x07; x00; x00; x00] = 7
      /\ download_media_decode sample_client
           (framing_encode [x07; x00; x00; x00])
           (FileData_of_attributes None None None None)
         = Raise (ValueError
                    (unknown_media_type (framing_encode [x07; x00; x00; x00])))
      /\ unknown_media_type (framing_encode [x07; x00; x00; x00])
         <> unknown_media_type (str_int 7)).
Proof.
  split.
  - split; [vm_compute; reflexivity|].
    split; [unfold known_tags; cbn [In]; lia|].
    split; [apply framing_roundtrip|].
    vm_compute. reflexivity.
  - split; [vm_compute; reflexivity|].
    split; [vm_compute; reflexivity|].
    vm_compute. discriminate.
Qed.

(** C3, amended.  A framed blob whose first byte is none of the known
    tags is refused with the [ValueError] of the unknown media type, whose
    message carries the file id string; never with [FileIdInvalid]. *)
Theorem unknown_first_byte_is_value_error (self : BaseClient)
    (file_id_str : string) (b : byte) (rest : bytes) (data : FileData) :
  utils_decode self file_id_str = Return (b :: rest) ->
  ~ In (byte_to_Z b) known_tags ->
  download_media_decode self file_id_str data
  = Raise (ValueError (String.append "Unknown media type: " file_id_str))
  /\ download_media_decode self file_id_str data <> Raise FileIdInvalid.
Proof.
  intros Hdec K.
  rewrite (download_media_decode_by_layout _ _ _ _ Hdec).
  unfold decode_by_layout. rewrite (layout_of_byte_unknown _ K).
  split; [reflexivity | discriminate].
Qed.

Lemma unknown_first_byte_is_value_error_witness :
  utils_decode sample_client (framing_encode [x07; x00; x00; x00])
  = Return [x07; x00; x00; x00]
  /\ ~ In (byte_to_Z x07) known_tags
  /\ download_media_decode sample_client
       (framing_encode [x07; x00; x00; x00])
       (FileData_of_attributes None None None None)
     <> Raise FileIdInvalid.
Proof.
  split; [apply framing_roundtrip|].
  split; [unfold known_tags; cbn; lia|].
  apply (unknown_first_byte_is_value_error sample_client
           (framing_encode [x07; x00; x00; x00]) x07 [x00; x00; x00]);
    [apply framing_roundtrip | unfold known_tags; cbn; lia].
Defined.

(** ** Round trip *)

Lemma getitem0_pack (fmt : format) (t : Z) (vals : list Z) (blob : bytes) :
  pack (c_i :: fmt) (t :: vals) = Return blob ->
  0 <= t < 256 ->
  getitem0 blob = Return t.
Proof.
  unfold pack. cbn [pack_fields]. intros H R.
  destruct (in_range c_i t); [|discriminate].
  destruct (pack_fields fmt vals) as [tail|e]; [|discriminate].
  cbn [bind] in H. injection H as <-.
  cbn [sizeof le_bytes app getitem0].
  rewrite byte_to_Z_of_Z, Z.mod_small by lia. reflexivity.
Qed.

Lemma in_range_i_small (v : Z) : 0 <= v < 1114112 -> in_range c_i v = true.
Proof.
  intro R. unfold in_range.
  change (2 ^ (8 * Z.of_nat (sizeof c_i) - 1)) with 2147483648.
  apply andb_true_iff. split; [apply Z.leb_le | apply Z.ltb_lt]; lia.
Qed.

Ltac split_valid H :=
  repeat match type of H with
         | (_ && _ = true) =>
             let H' := fresh "V" in
             apply andb_true_iff in H; destruct H as [H H']
         end.

(** C1.  Provided the outer framing gives back the blob it was given,
    every valid identifier of one of the three variants is packed into a
    blob, and the decoder applied to the file id of that blob returns
    exactly the fields that were packed: the tag, [dc_id], the ids and
    access hashes, the volume and local ids, the thumbnail code, and
    [is_big]. *)
Theorem decode_encode_roundtrip (self : BaseClient) (x : MediaIdentifier)
    (data : FileData) :
  (forall blob, utils_decode self (utils_encode self blob) = Return blob) ->
  valid_identifier x = true ->
  exists blob,
    encode_blob x = Return blob
    /\ download_media_decode self (utils_encode self blob) data
       = Return (FileData_of_identifier x data).
Proof.
  intros Hframe V.
  destruct x as [dc ph s1 vol big peer s2 pah loc
                | tag dc doc ah vol thumb loc
                | tag dc doc ah];
    cbn [valid_identifier] in V; split_valid V.
  - assert (Hsize : in_range c_i (if big then 3 else 2) = true)
      by (destruct big; reflexivity).
    destruct (pack_photo_like dc ph s1 vol big peer s2 pah loc)
      as [blob|e] eqn:P.
    2:{ unfold pack_photo_like, pack, fmt_iiqqqiiiqi in P.
        cbn [pack_fields] in P.
        rewrite V, V6, V5, V4, Hsize, V3, V2, V1, V0 in P.
        change (in_range c_i 1) with true in P. discriminate. }
    exists blob. split; [exact P|].
    unfold download_media_decode, download_media_try.
    rewrite Hframe. cbn [bind]. unfold pack_photo_like in P.
    rewrite (getitem0_pack _ _ _ _ P) by lia. cbn [bind Z.eqb].
    rewrite (unpack_pack _ _ _ P). cbn [bind tl].
    destruct big; reflexivity.
  - apply in_tuple_In in V.
    assert (Ht : 0 <= tag < 256 /\ in_range c_i tag = true
                 /\ (tag =? 1) = false)
      by (cbn [In] in V; destruct V as [<-|[<-|[<-|[]]]];
          repeat split; solve [lia | reflexivity]).
    destruct Ht as [Ht [Rt T1]].
    assert (Rthumb : 0 <= thumb < 1114112).
    { apply andb_true_iff in V1. destruct V1 as [A B].
      apply Z.leb_le in A. apply Z.ltb_lt in B. lia. }
    destruct (pack_with_thumb tag dc doc ah vol thumb loc) as [blob|e] eqn:P.
    2:{ unfold pack_with_thumb, pack, fmt_iiqqqiiii, ord in P.
        cbn [pack_fields] in P.
        rewrite Rt, V5, V4, V3, V2, (in_range_i_small thumb Rthumb), V0 in P.
        change (in_range c_i 1) with true in P.
        change (in_range c_i 2) with true in P. discriminate. }
    exists blob. split; [exact P|].
    unfold download_media_decode, download_media_try.
    rewrite Hframe. cbn [bind]. unfold pack_with_thumb in P.
    rewrite (getitem0_pack _ _ _ _ P) by lia. cbn [bind].
    rewrite T1. apply in_tuple_In in V. rewrite V.
    rewrite (unpack_pack _ _ _ P). cbn [bind tl].
    unfold chr, ord. rewrite V1. reflexivity.
  - apply in_tuple_In in V.
    assert (Ht : 0 <= tag < 256 /\ in_range c_i tag = true
                 /\ (tag =? 1) = false /\ in_tuple tag [0; 2; 14] = false)
      by (cbn [In] in V;
          destruct V as [<-|[<-|[<-|[<-|[<-|[<-|[<-|[]]]]]]]];
          repeat split; solve [lia | reflexivity]).
    destruct Ht as [Ht [Rt [T1 T2]]].
    destruct (pack_document tag dc doc ah) as [blob|e] eqn:P.
    2:{ unfold pack_document, pack, fmt_iiqq in P. cbn [pack_fields] in P.
        rewrite Rt, V2, V1, V0 in P. discriminate. }
    exists blob. split; [exact P|].
    unfold download_media_decode, download_media_try.
    rewrite Hframe. cbn [bind]. unfold pack_document in P.
    rewrite (getitem0_pack _ _ _ _ P) by lia. cbn [bind].
    rewrite T1, T2. apply in_tuple_In in V. rewrite V.
    rewrite (unpack_pack _ _ _ P). reflexivity.
Qed.

Lemma decode_encode_roundtrip_witness :
  (forall blob,
     utils_decode sample_client (utils_encode sample_client blob)
     = Return blob)
  /\ valid_identifier (DocumentWithThumb 2 4 (-77) 123456789012 9 120 5)
     = true
  /\ exists blob,
       encode_blob (DocumentWithThumb 2 4 (-77) 123456789012 9 120 5)
       = Return blob
       /\ download_media_decode sample_client
            (utils_encode sample_client blob)
            (FileData_of_attributes None None None None)
          = Return {| media_type := Some 2; dc_id := Some 4;
                      document_id := Some (-77);
                      access_hash := Some 123456789012;
                      thumb_size := Some 120; peer_id := None;
                      peer_access_hash := None; volume_id := None;
                      local_id := None; is_big := None;
                      file_size := None; mime_type := None;
                      file_name := None; date := None |}.
Proof.
  split; [exact framing_roundtrip|]. split; [reflexivity|].
  exact (decode_encode_roundtrip sample_client
           (DocumentWithThumb 2 4 (-77) 123456789012 9 120 5)
           (FileData_of_attributes None None None None)
           framing_roundtrip eq_refl).
Defined.

(** ** [os.path.split] *)

Lemma is_sep_eq (c : ascii) : is_sep c = true <-> c = "/"%char.
Proof. unfold is_sep. apply Ascii.eqb_eq. Qed.

Lemma rfind_from_found_or_ge (p : list ascii) :
  forall i found, rfind_from p i found = found \/ i <= rfind_from p i found.
Proof.
  induction p as [|c p IH]; intros i found; cbn [rfind_from]; [now left|].
  destruct (is_sep c).
  - right. destruct (IH (i + 1) i) as [E|G]; lia.
  - destruct (IH (i + 1) found) as [E|G]; [now left | right; lia].
Qed.

Lemma rfind_from_absent (p : list ascii) :
  forall i found, ~ In "/"%char p -> rfind_from p i found = found.
Proof.
  induction p as [|c p IH]; intros i found N; cbn [rfind_from];
    [reflexivity|].
  destruct (is_sep c) eqn:S.
  - elim N. left. apply is_sep_eq. exact S.
  - apply IH. intro H. apply N. now right.
Qed.

Lemma rfind_from_present (p : list ascii) :
  forall i found, In "/"%char p -> i <= rfind_from p i found.
Proof.
  induction p as [|c p IH]; intros i found H; [destruct H|].
  cbn [rfind_from]. destruct (is_sep c) eqn:S.
  - destruct (rfind_from_found_or_ge p (i + 1) i) as [E|G]; lia.
  - destruct H as [H|H].
    + subst c. discriminate.
    + specialize (IH (i + 1) found H). lia.
Qed.

Lemma lstrip_sep_nil (p : list ascii) :
  lstrip_sep p = [] -> forallb is_sep p = true.
Proof.
  induction p as [|c p IH]; cbn [lstrip_sep forallb]; [reflexivity|].
  destruct (is_sep c); [exact IH | discriminate].
Qed.

Lemma forallb_rev {A : Type} (f : A -> bool) (l : list A) :
  forallb f (rev l) = forallb f l.
Proof.
  induction l as [|a l IH]; [reflexivity|].
  cbn [rev forallb]. rewrite forallb_app, IH. cbn [forallb].
  rewrite andb_true_r. apply andb_comm.
Qed.

Lemma rstrip_sep_nil (p : list ascii) :
  rstrip_sep p = [] -> forallb is_sep p = true.
Proof.
  unfold rstrip_sep. intro H.
  assert (E : lstrip_sep (rev p) = []).
  { destruct (lstrip_sep (rev p)) as [|a l]; [reflexivity|].
    cbn [rev] in H. now destruct (rev l). }
  rewrite <- forallb_rev. now apply lstrip_sep_nil.
Qed.

Lemma string_of_list_ascii_nil (l : list ascii) :
  string_of_list_ascii l = "" <-> l = [].
Proof. destruct l; cbn; split; intro H; try reflexivity; discriminate. Qed.

(** The head of [os.path.split] is empty exactly on a path without
    separator. *)
Lemma os_path_split_head (path : string) :
  fst (os_path_split path) = ""
  <-> ~ In "/"%char (list_ascii_of_string path).
Proof.
  unfold os_path_split. cbn [fst].
  set (p := list_ascii_of_string path).
  rewrite string_of_list_ascii_nil. split.
  - intros H Hin.
    pose proof (rfind_from_present p 0 (-1) Hin) as G. fold (rfind_sep p) in G.
    destruct p as [|c p']; [destruct Hin|].
    replace (Z.to_nat (rfind_sep (c :: p') + 1))
      with (S (Z.to_nat (rfind_sep (c :: p')))) in H by lia.
    cbn [firstn] in H.
    destruct (forallb is_sep (c :: firstn (Z.to_nat (rfind_sep (c :: p'))) p'))
      eqn:F; [discriminate|].
    apply rstrip_sep_nil in H. congruence.
  - intro N. unfold rfind_sep. rewrite (rfind_from_absent p 0 (-1) N).
    reflexivity.
Qed.

(** ** The destination directory *)

(** C9.  When the resolved file name is not absolute, the directory of the
    download is the default ["downloads/"] under the parent directory of
    the client if the caller's path has no directory component, and the
    caller's directory under that parent otherwise. *)
Theorem destination_directory (self : BaseClient) (file_name_arg : string)
    (data : FileData) :
  os_path_isabs (snd (download_media_destination self file_name_arg data))
  = false ->
  (~ In "/"%char (list_ascii_of_string file_name_arg) ->
   fst (os_path_split file_name_arg) = ""
   /\ fst (download_media_destination self file_name_arg data)
      = parent_join self "downloads/")
  /\ (In "/"%char (list_ascii_of_string file_name_arg) ->
      fst (os_path_split file_name_arg) <> ""
      /\ fst (download_media_destination self file_name_arg data)
         = parent_join self (fst (os_path_split file_name_arg))).
Proof.
  intro Habs. unfold download_media_destination in *.
  destruct (os_path_split file_name_arg) as [directory name] eqn:S.
  cbn [fst snd] in *. rewrite Habs. cbn [negb].
  assert (Hhead := os_path_split_head file_name_arg).
  rewrite S in Hhead. cbn [fst] in Hhead.
  split; intro H.
  - apply Hhead in H. subst directory. split; reflexivity.
  - assert (N : directory <> "") by (intro E; apply Hhead in E; contradiction).
    split; [exact N|]. destruct directory; [now elim N | reflexivity].
Qed.

Lemma destination_directory_witness :
  os_path_isabs
    (snd (download_media_destination sample_client "media/clip.mp4"
            (FileData_of_attributes None None None None))) = false
  /\ fst (download_media_destination sample_client "media/clip.mp4"
            (FileData_of_attributes None None None None))
     = "/home/user/media"
  /\ fst (download_media_destination sample_client "clip.mp4"
            (FileData_of_attributes None None None None))
     = "/home/user/downloads/".
Proof.
  split; [reflexivity|]. split.
  - apply (proj2 (destination_directory sample_client "media/clip.mp4"
                    (FileData_of_attributes None None None None) eq_refl)).
    cbn. tauto.
  - apply (proj1 (destination_directory sample_client "clip.mp4"
                    (FileData_of_attributes None None None None) eq_refl)).
    cbn. intros H.
    repeat (destruct H as [H|H]; [discriminate|]). exact H.
Defined.

(** ** Synthesized file names *)

(** The caller gives no file name with the default path, the document
    carries the name ["report"], and that name is kept: no name is
    synthesized, and no extension is added. *)
Lemma named_media_keeps_its_name :
  snd (os_path_split DEFAULT_DOWNLOAD_DIR) = ""
  /\ exists data,
       download_media_prepare sample_client (arg_Media named_document)
         DEFAULT_DOWNLOAD_DIR 42 1546300800
       = Return (data, "/home/user/downloads", "report", [])
       /\ media_type data = Some 5
       /\ "report" <> synthesized_name sample_client data "document" 42
                        1546300800.
Proof.
  split; [reflexivity|].
  eexists. split; [vm_compute; reflexivity|].
  split; [reflexivity|]. vm_compute. discriminate.
Qed.

(** C7, amended.  When the caller supplies no file name and the media
    object carries none either, the name is the label of the media kind,
    the timestamp of the declared date (of the current time when the date
    is absent or zero), the random id and an extension, joined as
    [label_timestamp_id] followed by the extension; the extension is
    [".jpg"] for the kinds 0, 1, 2, 14 whatever the MIME type, and the
    guess from the MIME type, or else the default of the kind, for the
    kinds 3, 4, 5, 8, 9, 10, 13. *)
Theorem synthesized_file_name (self : BaseClient) (file_name_arg : string)
    (data : FileData) (mt : Z) (label : string) (rnd now : Z) :
  snd (os_path_split file_name_arg) = "" ->
  or_str (file_name data) "" = "" ->
  media_type data = Some mt ->
  MEDIA_TYPE_ID self mt = Some label ->
  exists stamp extension,
    download_media_file_name self data
      (snd (download_media_destination self file_name_arg data)) rnd now
    = Return (label ++ "_" ++ stamp ++ "_" ++ str_int rnd ++ extension)%string
    /\ (forall d, date data = Some d -> d <> 0 -> stamp = strftime self d)
    /\ (date data = None \/ date data = Some 0 -> stamp = strftime self now)
    /\ (In mt [0; 1; 2; 14] -> extension = ".jpg")
    /\ (In mt [3; 4; 5; 8; 9; 10; 13] ->
        extension = or_str (guess_extension self (mime_type data))
                      (default_extension mt)).
Proof.
  intros Harg Hname Hmt Hlabel.
  exists (strftime self (or_int (date data) now)).
  exists (download_media_extension self data).
  split; [|split; [|split; [|split]]].
  - unfold download_media_destination.
    destruct (os_path_split file_name_arg) as [directory name].
    cbn [snd] in *. subst name. cbn [or_str]. rewrite Hname.
    destruct (negb (os_path_isabs "")); cbn [snd];
      unfold download_media_file_name; rewrite Hmt, Hlabel; reflexivity.
  - intros d Hd Hnz. rewrite Hd. cbn [or_int].
    apply Z.eqb_neq in Hnz. now rewrite Hnz.
  - intros [Hd|Hd]; rewrite Hd; reflexivity.
  - intro H. unfold download_media_extension. rewrite Hmt.
    apply in_tuple_In in H. now rewrite H.
  - intro H. unfold download_media_extension. rewrite Hmt.
    cbn [In] in H.
    destruct H as [<-|[<-|[<-|[<-|[<-|[<-|[<-|[]]]]]]]]; reflexivity.
Qed.

Lemma synthesized_file_name_witness :
  snd (os_path_split "downloads/") = ""
  /\ exists stamp extension,
       download_media_file_name sample_client
         (FileData_of_identifier (DocumentPlain 5 2 7 9)
            (FileData_of_attributes None None (Some "application/pdf") None))
         (snd (download_media_destination sample_client "downloads/"
                 (FileData_of_identifier (DocumentPlain 5 2 7 9)
                    (FileData_of_attributes None None
                       (Some "application/pdf") None))))
         42 1546300800
       = Return ("document" ++ "_" ++ stamp ++ "_" ++ str_int 42
                   ++ extension)%string
       /\ extension = ".pdf".
Proof.
  split; [reflexivity|].
  destruct (synthesized_file_name sample_client "downloads/"
              (FileData_of_identifier (DocumentPlain 5 2 7 9)
                 (FileData_of_attributes None None
                    (Some "application/pdf") None))
              5 "document" 42 1546300800 eq_refl eq_refl eq_refl eq_refl)
    as [stamp [extension [E [_ [_ [_ X]]]]]].
  exists stamp, extension. split; [exact E|].
  rewrite X by (cbn; tauto). reflexivity.
Defined.

(** ** Re-sending a missing part *)

(** C5.  The upload is done and the first [send] fails with
    [FilePartMissing i].  Then the method calls [save_file] once more,
    with the id of the uploaded file and the part [i], and sends the same
    request again.  If that second [send] returns a new message, the
    message is returned; if it raises another error, that error reaches
    the caller.  In both cases the calls made are the upload, the first
    [send], the one [save_file] of part [i], and the second [send]. *)
Theorem missing_part_is_resent (video_note : string) (thumb : option string)
    (w : World) (tf x : option InputFile) (f : InputFile) (i : Z)
    (saves : list (result (option InputFile))) (second : result Updates)
    (sends : list (result Updates)) :
  path_exists w video_note = true ->
  save_file_replies w
  = match thumb with Some _ => [Return tf] | None => [] end
      ++ [Return (Some f); Return x] ++ saves ->
  send_replies w = Raise (FilePartMissing i) :: second :: sends ->
  let media :=
    InputMediaUploadedDocument (Some f)
      match thumb with Some _ => tf | None => None end in
  let made :=
    calls w
      ++ match thumb with
         | Some t => [call_save_file t None 0 false]
         | None => []
         end
      ++ [call_save_file video_note None 0 true;
          call_send media;
          call_save_file video_note (Some (file_id f)) i false;
          call_send media] in
  (forall r m,
     second = Return r -> first_new_message (updates r) r = Some m ->
     exists w',
       send_video_note video_note thumb w = Some (Return (Some m), w')
       /\ calls w' = made
       /\ save_file_replies w' = saves /\ send_replies w' = sends)
  /\ (forall e,
        second = Raise e -> (forall p, e <> FilePartMissing p) ->
        e <> StopTransmission ->
        exists w',
          send_video_note video_note thumb w = Some (Raise e, w')
          /\ calls w' = made
          /\ save_file_replies w' = saves /\ send_replies w' = sends).
Proof.
  intros Hexists Hsaves Hsends media made. subst media made.
  destruct w as [pe im sv sn cl]. cbn [path_exists save_file_replies
    send_replies calls] in *. subst sv sn.
  unfold send_video_note, except_StopTransmission, send_video_note_try.
  cbn [path_exists]. rewrite Hexists.
  split.
  - intros r m -> Hm.
    destruct thumb as [t|]; cbn; rewrite Hm; eexists;
      (split; [reflexivity|]); cbn [calls save_file_replies send_replies];
      repeat rewrite <- app_assoc; repeat split; reflexivity.
  - intros e -> Hpart Hstop.
    destruct thumb as [t|]; cbn;
      destruct e; try (now elim (Hpart x0)); try (now elim Hstop);
      eexists; (split; [reflexivity|]);
      cbn [calls save_file_replies send_replies];
      repeat rewrite <- app_assoc; repeat split; reflexivity.
Qed.

Lemma missing_part_is_resent_witness :
  exists w',
    send_video_note "note.mp4" None
      (sample_world [Return (Some {| file_id := 77 |}); Return None]
         [Raise (FilePartMissing 3);
          Return {| updates := [UpdateOther; UpdateNewMessage 11];
                    users := [1]; chats := [2] |}])
    = Some (Return (Some {| parsed_message := 11; parsed_users := [1];
                            parsed_chats := [2]; is_scheduled := false |}),
            w')
    /\ calls w'
       = [call_save_file "note.mp4" None 0 true;
          call_send (InputMediaUploadedDocument
                       (Some {| file_id := 77 |}) None);
          call_save_file "note.mp4" (Some 77) 3 false;
          call_send (InputMediaUploadedDocument
                       (Some {| file_id := 77 |}) None)]
    /\ save_file_replies w' = [] /\ send_replies w' = [].
Proof.
  exact (proj1 (missing_part_is_resent "note.mp4" None
                  (sample_world
                     [Return (Some {| file_id := 77 |}); Return None]
                     [Raise (FilePartMissing 3);
                      Return {| updates := [UpdateOther; UpdateNewMessage 11];
                                users := [1]; chats := [2] |}])
                  None None {| file_id := 77 |} 3 []
                  (Return {| updates := [UpdateOther; UpdateNewMessage 11];
                             users := [1]; chats := [2] |})
                  [] eq_refl eq_refl eq_refl)
           {| updates := [UpdateOther; UpdateNewMessage 11];
              users := [1]; chats := [2] |}
           {| parsed_message := 11; parsed_users := [1];
              parsed_chats := [2]; is_scheduled := false |}
           eq_refl eq_refl).
Defined.

(** ** Cancellation *)

Lemma length_set_nth (l : list Cell) (h : nat) (v : Cell) :
  List.length (set_nth l h v) = List.length l.
Proof.
  revert h. induction l as [|a l IH]; intros [|h]; cbn; try reflexivity.
  now rewrite IH.
Qed.

Lemma nth_set_nth_same (l : list Cell) (h : nat) (v d : Cell) :
  (h < List.length l)%nat -> nth h (set_nth l h v) d = v.
Proof.
  revert h. induction l as [|a l IH]; intros [|h] L; cbn in *; try lia.
  - reflexivity.
  - apply IH. lia.
Qed.

Lemma nth_set_nth_other (l : list Cell) (h k : nat) (v d : Cell) :
  h <> k -> nth h (set_nth l k v) d = nth h l d.
Proof.
  revert h k. induction l as [|a l IH]; intros [|h] [|k] N; cbn;
    try reflexivity; try lia.
  apply IH. lia.
Qed.

(** The worker reaches the job of the waiting caller after the jobs that
    were queued before it, none of which writes its cell. *)
Lemma wait_loop_reaches (transfer : Job -> transfer_outcome) (job : Job)
    (q : list Job) :
  forall cs,
    (job_cell job < List.length cs)%nat ->
    done_is_set (nth (job_cell job) cs new_cell) = false ->
    Forall (fun j => job_cell j <> job_cell job) q ->
    exists c',
      wait_loop (List.length (q ++ [job])) transfer (job_cell job)
        {| download_queue := q ++ [job]; cells := cs |} = Some c'
      /\ get_cell c' (job_cell job)
         = {| done_is_set := true;
              path_0 := match transfer job with
                        | Completed final_path => Some final_path
                        | Failed => None
                        | Cancelled => None
                        end |}.
Proof.
  induction q as [|j q IH]; intros cs L D F.
  - cbn [app List.length wait_loop]. unfold get_cell at 1. cbn [cells].
    rewrite D. cbn [download_queue]. unfold download_worker_step.
    cbn [download_queue cells wait_loop]. unfold get_cell. cbn [cells].
    rewrite nth_set_nth_same by assumption. cbn [done_is_set].
    eexists. split; [reflexivity|]. cbn [cells].
    now rewrite nth_set_nth_same.
  - cbn [app List.length wait_loop]. unfold get_cell at 1. cbn [cells].
    rewrite D. cbn [download_queue]. unfold download_worker_step.
    cbn [download_queue cells].
    inversion F as [|? ? Hj Hq]; subst.
    apply IH.
    + now rewrite length_set_nth.
    + rewrite nth_set_nth_other by congruence. assumption.
    + assumption.
Qed.

(** C8.  A transfer that is stopped gives no result and no error.  In
    [send_video_note], a [StopTransmission] raised by any call inside the
    [try] makes the method return [None], and the method never raises
    [StopTransmission] itself; a stop during the upload ends the method
    before any [send].  In [download_media], a caller that blocks on a job
    whose transfer is cancelled is woken up and receives [None]. *)
Theorem stopped_transfer_returns_None :
  (forall video_note thumb w w',
     send_video_note_try video_note thumb w = Some (Raise StopTransmission, w')
     -> send_video_note video_note thumb w = Some (Return None, w'))
  /\ (forall video_note thumb w r w',
        send_video_note video_note thumb w = Some (r, w') ->
        r <> Raise StopTransmission)
  /\ (forall video_note w saves,
        path_exists w video_note = true ->
        save_file_replies w = Raise StopTransmission :: saves ->
        exists w',
          send_video_note video_note None w = Some (Return None, w')
          /\ calls w' = calls w ++ [call_save_file video_note None 0 true])
  /\ (forall self transfer message file_name_arg rnd now c data directory
             name file_reference,
        wf_client c ->
        download_media_prepare self message file_name_arg rnd now
        = Return (data, directory, name, file_reference) ->
        transfer {| job_data := data; job_directory := directory;
                    job_file_name := name;
                    job_cell := List.length (cells c);
                    job_file_reference := file_reference |} = Cancelled ->
        exists c',
          download_media self transfer message file_name_arg true rnd now c
          = Some (Return None, c')).
Proof.
  split; [|split; [|split]].
  - intros video_note thumb w w' H. unfold send_video_note,
      except_StopTransmission. now rewrite H.
  - intros video_note thumb w r w' H. unfold send_video_note,
      except_StopTransmission in H.
    destruct (send_video_note_try video_note thumb w) as [[[a|e] w1]|];
      try discriminate.
    + injection H as <- _. discriminate.
    + destruct e; injection H as <- _; discriminate.
  - intros video_note w saves Hexists Hsaves.
    unfold send_video_note, except_StopTransmission, send_video_note_try.
    rewrite Hexists. unfold io_bind, io_ret, save_file. rewrite Hsaves.
    eexists. split; reflexivity.
  - intros self transfer message file_name_arg rnd now c data directory name
      file_reference Hwf Hprep Hcancel.
    unfold download_media. rewrite Hprep. unfold done_wait.
    cbn [download_queue cells].
    set (job := {| job_data := data; job_directory := directory;
                   job_file_name := name;
                   job_cell := List.length (cells c);
                   job_file_reference := file_reference |}) in *.
    destruct (wait_loop_reaches transfer job (download_queue c)
                (cells c ++ [new_cell])) as [c' [Hw Hc]].
    + cbn [job_cell job]. rewrite length_app. cbn. lia.
    + cbn [job_cell job]. rewrite app_nth2 by lia.
      rewrite Nat.sub_diag. reflexivity.
    + unfold wf_client in Hwf. eapply Forall_impl; [|exact Hwf].
      cbn [job_cell job]. intros j Hj. cbn beta in Hj. lia.
    + cbn [job_cell job] in Hw, Hc. rewrite Hw, Hc, Hcancel.
      exists c'. reflexivity.
Qed.

Lemma stopped_transfer_returns_None_witness :
  wf_client empty_client
  /\ (exists c',
        download_media sample_client (fun _ => Cancelled)
          (arg_str (framing_encode ([x08; x00; x00; x00] ++ repeat x00 20)))
          "downloads/" true 42 1546300800 empty_client
        = Some (Return None, c'))
  /\ (exists w',
        send_video_note "note.mp4" None
          (sample_world [Raise StopTransmission] [])
        = Some (Return None, w')
        /\ calls w' = [call_save_file "note.mp4" None 0 true]).
Proof.
  split; [constructor|]. split.
  - eapply (proj2 (proj2 (proj2 stopped_transfer_returns_None))
              sample_client (fun _ => Cancelled)).
    + constructor.
    + vm_compute. reflexivity.
    + reflexivity.
  - exact (proj1 (proj2 (proj2 stopped_transfer_returns_None))
             "note.mp4" (sample_world [Raise StopTransmission] []) []
             eq_refl eq_refl).
Defined.

(** * Further properties *)

(** ** The decoder: what a success means, what an error can be *)

(** A [FileData] comes out of the [try] block only from a framed,
    non-empty blob, as one of the three readings at fixed offsets. *)
Lemma download_media_decode_Return_inv (self : BaseClient)
    (file_id_str : string) (data d : FileData) :
  download_media_decode self file_id_str data = Return d ->
  exists b rest,
    utils_decode self file_id_str = Return (b :: rest)
    /\ ((byte_to_Z b = 1 /\ List.length (b :: rest) = 56%nat
         /\ d = photo_like_view (b :: rest) data)
        \/ (In (byte_to_Z b) [0; 2; 14] /\ List.length (b :: rest) = 48%nat
            /\ d = with_thumb_view (byte_to_Z b) (b :: rest) data)
        \/ (In (byte_to_Z b) [3; 4; 5; 8; 9; 10; 13]
            /\ List.length (b :: rest) = 24%nat
            /\ d = plain_view (byte_to_Z b) (b :: rest) data)).
Proof.
  intro H.
  destruct (utils_decode self file_id_str) as [blob|e] eqn:Hdec.
  2:{ unfold download_media_decode, download_media_try in H.
      rewrite Hdec in H. destruct e; discriminate. }
  rewrite (download_media_decode_by_layout _ _ _ _ Hdec) in H.
  destruct blob as [|b rest]; [discriminate|].
  exists b, rest. split; [reflexivity|].
  unfold decode_by_layout, layout_of_byte in H.
  remember (b :: rest) as blob eqn:Eblob. clear Eblob.
  destruct (byte_to_Z b =? 1) eqn:T1.
  - left. apply Z.eqb_eq in T1.
    destruct (Nat.eqb_spec (List.length blob) (calcsize fmt_iiqqqiiiqi));
      [|discriminate].
    cbn [negb] in H. injection H as <-. auto.
  - destruct (in_tuple (byte_to_Z b) [0; 2; 14]) eqn:T2.
    + right. left. apply in_tuple_In in T2.
      destruct (Nat.eqb_spec (List.length blob) (calcsize fmt_iiqqqiiii));
        [|discriminate].
      cbn [negb] in H.
      destruct ((0 <=? field 4 40 blob) && (field 4 40 blob <? 1114112));
        [|discriminate].
      injection H as <-. auto.
    + destruct (in_tuple (byte_to_Z b) [3; 4; 5; 8; 9; 10; 13]) eqn:T3;
        [|discriminate].
      right. right. apply in_tuple_In in T3.
      destruct (Nat.eqb_spec (List.length blob) (calcsize fmt_iiqq));
        [|discriminate].
      cbn [negb] in H. injection H as <-. auto.
Qed.

(** X1.  Whenever the decoder returns a [FileData], its [media_type] is
    the first byte of the framed blob, that byte is one of the eleven known
    tags, and the blob has exactly the length of the layout of that tag. *)
Theorem decoded_media_type_is_known (self : BaseClient)
    (file_id_str : string) (data d : FileData) :
  download_media_decode self file_id_str data = Return d ->
  exists b rest fmt,
    utils_decode self file_id_str = Return (b :: rest)
    /\ media_type d = Some (byte_to_Z b)
    /\ In (byte_to_Z b) known_tags
    /\ layout_of_byte (byte_to_Z b) = Some fmt
    /\ List.length (b :: rest) = calcsize fmt.
Proof.
  intro H. apply download_media_decode_Return_inv in H.
  destruct H as [b [rest [Hdec Hcases]]].
  exists b, rest.
  destruct Hcases as [[T [L ->]]|[[T [L ->]]|[T [L ->]]]].
  - exists fmt_iiqqqiiiqi. rewrite T.
    repeat split; try assumption; try reflexivity.
    unfold known_tags. cbn [In]. tauto.
  - exists fmt_iiqqqiiii.
    repeat split; try assumption; try reflexivity.
    + unfold known_tags. cbn [In] in *. tauto.
    + cbn [In] in T. destruct T as [<-|[<-|[<-|[]]]]; reflexivity.
  - exists fmt_iiqq.
    repeat split; try assumption; try reflexivity.
    + unfold known_tags. cbn [In] in *. tauto.
    + cbn [In] in T.
      destruct T as [<-|[<-|[<-|[<-|[<-|[<-|[<-|[]]]]]]]]; reflexivity.
Qed.

Lemma decoded_media_type_is_known_witness :
  exists b rest fmt,
    utils_decode sample_client (framing_encode blob_257) = Return (b :: rest)
    /\ media_type (photo_like_view blob_257
                     (FileData_of_attributes None None None None))
       = Some (byte_to_Z b)
    /\ In (byte_to_Z b) known_tags
    /\ layout_of_byte (byte_to_Z b) = Some fmt
    /\ List.length (b :: rest) = calcsize fmt.
Proof.
  apply (decoded_media_type_is_known sample_client (framing_encode blob_257)
           (FileData_of_attributes None None None None)).
  vm_compute. reflexivity.
Defined.

(** X2.  Whatever the layout, the [FileData] that the decoder returns
    keeps the [file_name], [file_size], [mime_type] and [date] of the media
    object, and only those come from it. *)
Theorem decoded_keeps_media_attributes (self : BaseClient)
    (file_id_str : string) (data d : FileData) :
  download_media_decode self file_id_str data = Return d ->
  file_name d = file_name data
  /\ file_size d = file_size data
  /\ mime_type d = mime_type data
  /\ date d = date data
  /\ forall data',
       exists d',
         download_media_decode self file_id_str data' = Return d'
         /\ media_type d' = media_type d /\ dc_id d' = dc_id d
         /\ document_id d' = document_id d
         /\ access_hash d' = access_hash d
         /\ thumb_size d' = thumb_size d /\ peer_id d' = peer_id d
         /\ peer_access_hash d' = peer_access_hash d
         /\ volume_id d' = volume_id d /\ local_id d' = local_id d
         /\ is_big d' = is_big d.
Proof.
  intro H. pose proof (download_media_decode_Return_inv _ _ _ _ H) as Hinv.
  destruct Hinv as [b [rest [Hdec Hcases]]].
  assert (Hd : forall data',
             download_media_decode self file_id_str data'
             = decode_by_layout file_id_str (b :: rest) data')
    by (intro; now apply download_media_decode_by_layout).
  rewrite Hd in H.
  destruct Hcases as [[T [L ->]]|[[T [L ->]]|[T [L ->]]]];
    (repeat split; try reflexivity; intro data'; rewrite Hd);
    unfold decode_by_layout in *.
  - assert (Hlay : layout_of_byte (byte_to_Z b) = Some fmt_iiqqqiiiqi)
      by (rewrite T; reflexivity).
    rewrite Hlay, L, T. cbn.
    eexists. split; [reflexivity|]. cbn. repeat split; reflexivity.
  - assert (Hlay : layout_of_byte (byte_to_Z b) = Some fmt_iiqqqiiii)
      by (cbn [In] in T; destruct T as [<-|[<-|[<-|[]]]]; reflexivity).
    assert (T1 : (byte_to_Z b =? 1) = false)
      by (cbn [In] in T; destruct T as [<-|[<-|[<-|[]]]]; reflexivity).
    rewrite Hlay, L, T1 in *. apply in_tuple_In in T. rewrite T in *.
    cbn [calcsize fmt_iiqqqiiii sizeof Nat.add Nat.eqb negb] in *.
    destruct ((0 <=? field 4 40 (b :: rest))
              && (field 4 40 (b :: rest) <? 1114112)); [|discriminate].
    eexists. split; [reflexivity|]. cbn. repeat split; reflexivity.
  - assert (Hlay : layout_of_byte (byte_to_Z b) = Some fmt_iiqq)
      by (cbn [In] in T;
          destruct T as [<-|[<-|[<-|[<-|[<-|[<-|[<-|[]]]]]]]]; reflexivity).
    assert (T1 : (byte_to_Z b =? 1) = false)
      by (cbn [In] in T;
          destruct T as [<-|[<-|[<-|[<-|[<-|[<-|[<-|[]]]]]]]]; reflexivity).
    assert (T2 : in_tuple (byte_to_Z b) [0; 2; 14] = false)
      by (cbn [In] in T;
          destruct T as [<-|[<-|[<-|[<-|[<-|[<-|[<-|[]]]]]]]]; reflexivity).
    rewrite Hlay, L, T1, T2. cbn.
    eexists. split; [reflexivity|]. cbn. repeat split; reflexivity.
Qed.

Lemma decoded_keeps_media_attributes_witness :
  mime_type (plain_view 5 ([x05; x00; x00; x00] ++ repeat x00 20)
               (FileData_of_attributes (Some "report") (Some 1024)
                  (Some "application/pdf") (Some 1546300800)))
  = Some "application/pdf".
Proof.
  apply (decoded_keeps_media_attributes sample_client
           (framing_encode ([x05; x00; x00; x00] ++ repeat x00 20))
           (FileData_of_attributes (Some "report") (Some 1024)
              (Some "application/pdf") (Some 1546300800))).
  vm_compute. reflexivity.
Defined.

(** X3.  An [AssertionError], [binascii.Error] or [struct.error] raised
    by [utils.decode] becomes [FileIdInvalid]; any other exception it
    raises passes through unchanged; and the decoder never lets one of the
    three out, whatever the file id. *)
Theorem framing_errors_are_translated (self : BaseClient)
    (file_id_str : string) (data : FileData) :
  (forall e,
     utils_decode self file_id_str = Raise e ->
     download_media_decode self file_id_str data
     = Raise match e with
             | AssertionError => FileIdInvalid
             | binascii_Error => FileIdInvalid
             | struct_error => FileIdInvalid
             | other => other
             end)
  /\ download_media_decode self file_id_str data <> Raise AssertionError
  /\ download_media_decode self file_id_str data <> Raise binascii_Error
  /\ download_media_decode self file_id_str data <> Raise struct_error.
Proof.
  split.
  - intros e H. unfold download_media_decode, download_media_try.
    rewrite H. destruct e; reflexivity.
  - unfold download_media_decode.
    destruct (download_media_try self file_id_str data) as [d|e];
      [repeat split; discriminate|].
    destruct e; repeat split; discriminate.
Qed.

(** X4.  A file id whose framed blob is empty makes the whole method raise
    [IndexError]: the [except] clause does not catch it, and no job is
    queued. *)
Theorem empty_blob_raises_IndexError (self : BaseClient)
    (transfer : Job -> transfer_outcome) (file_id_str file_name_arg : string)
    (block : bool) (rnd now : Z) (c : Client) :
  utils_decode self file_id_str = Return [] ->
  download_media self transfer (arg_str file_id_str) file_name_arg block rnd
    now c
  = Some (Raise IndexError, c).
Proof.
  intro H. unfold download_media, download_media_prepare.
  cbn [download_media_source bind].
  rewrite (download_media_decode_by_layout _ _ _ _ H). reflexivity.
Qed.

Lemma empty_blob_raises_IndexError_witness :
  utils_decode sample_client (framing_encode []) = Return []
  /\ download_media sample_client (fun _ => Failed)
       (arg_str (framing_encode [])) "downloads/" true 42 0 empty_client
     = Some (Raise IndexError, empty_client).
Proof.
  split; [reflexivity|].
  apply (empty_blob_raises_IndexError sample_client (fun _ => Failed)
           (framing_encode []) "downloads/" true 42 0 empty_client).
  reflexivity.
Defined.

(** ** Which media of a message *)

Lemma first_media_None (attrs : string -> option Media) (kinds : list string) :
  (forall kind, In kind kinds -> attrs kind = None) ->
  first_media attrs kinds = None.
Proof.
  induction kinds as [|k kinds IH]; intro H; [reflexivity|].
  cbn [first_media]. rewrite (H k) by now left.
  apply IH. intros kind Hin. apply H. now right.
Qed.

Lemma first_media_first (attrs : string -> option Media)
    (before after : list string) (kind : string) (m : Media) :
  (forall k, In k before -> attrs k = None) ->
  attrs kind = Some m ->
  first_media attrs (before ++ kind :: after) = Some m.
Proof.
  induction before as [|k before IH]; intros Hb Hk; cbn [app first_media].
  - now rewrite Hk.
  - rewrite (Hb k) by now left. apply IH; [|assumption].
    intros k' Hin. apply Hb. now right.
Qed.

(** X5.  From a [Message], the media that is downloaded is the first one
    present in the order audio, document, photo, sticker, animation, video,
    voice, video_note, whatever comes after it; a message that has none of
    them makes the method raise [ValueError] without queueing a job. *)
Theorem message_media_by_priority (self : BaseClient)
    (transfer : Job -> transfer_outcome) (attrs : string -> option Media)
    (file_name_arg : string) (block : bool) (rnd now : Z) (c : Client) :
  (forall before after kind m,
     available_media = before ++ kind :: after ->
     (forall k, In k before -> attrs k = None) ->
     attrs kind = Some m ->
     download_media self transfer (arg_Message attrs) file_name_arg block
       rnd now c
     = download_media self transfer (arg_Media m) file_name_arg block rnd
         now c)
  /\ ((forall kind, In kind available_media -> attrs kind = None) ->
      download_media self transfer (arg_Message attrs) file_name_arg block
        rnd now c
      = Some (Raise (ValueError error_message), c)).
Proof.
  split.
  - intros before after kind m Hsplit Hb Hk.
    unfold download_media, download_media_prepare.
    cbn [download_media_source]. rewrite Hsplit.
    now rewrite (first_media_first attrs before after kind m Hb Hk).
  - intro H. unfold download_media, download_media_prepare.
    cbn [download_media_source]. now rewrite (first_media_None _ _ H).
Qed.

Lemma message_media_by_priority_witness :
  download_media sample_client (fun _ => Failed)
    (arg_Message (fun kind =>
                    if String.eqb kind "document" then Some named_document
                    else if String.eqb kind "video" then
                      Some {| m_file_id := "";
                              m_file_name := None; m_file_size := None;
                              m_file_reference := []; m_mime_type := None;
                              m_date := None |}
                    else None))
    "downloads/" false 42 0 empty_client
  = download_media sample_client (fun _ => Failed) (arg_Media named_document)
      "downloads/" false 42 0 empty_client.
Proof.
  apply (proj1 (message_media_by_priority sample_client (fun _ => Failed) _
                  "downloads/" false 42 0 empty_client)
           ["audio"] ["photo"; "sticker"; "animation"; "video"; "voice";
                      "video_note"] "document" named_document).
  - reflexivity.
  - intros k [<-|[]]. reflexivity.
  - reflexivity.
Defined.

Lemma framing_errors_are_translated_witness :
  utils_decode sample_client "abc" = Raise AssertionError
  /\ download_media_decode sample_client "abc"
       (FileData_of_attributes None None None None)
     = Raise FileIdInvalid.
Proof.
  split; [reflexivity|].
  exact (proj1 (framing_errors_are_translated sample_client "abc"
                  (FileData_of_attributes None None None None))
           AssertionError eq_refl).
Defined.

(** ** More of [os.path.split] *)

(** Where the last separator is. *)
Lemma rfind_from_last (p : list ascii) :
  forall i found,
    In "/"%char p ->
    exists before after,
      p = before ++ "/"%char :: after
      /\ ~ In "/"%char after
      /\ rfind_from p i found = i + Z.of_nat (List.length before).
Proof.
  induction p as [|c p IH]; intros i found H; [destruct H|].
  cbn [rfind_from].
  destruct (in_dec ascii_dec "/"%char p) as [Hin|Hout].
  - destruct (IH (i + 1) (if is_sep c then i else found) Hin)
      as [before [after [E [N R]]]].
    exists (c :: before), after. subst p. split; [reflexivity|].
    split; [assumption|]. rewrite R. cbn [List.length]. lia.
  - destruct H as [H|H]; [|contradiction]. subst c.
    exists [], p. split; [reflexivity|]. split; [assumption|].
    cbn [is_sep]. rewrite (rfind_from_absent p (i + 1) _ Hout).
    cbn. lia.
Qed.

Lemma os_path_split_no_sep (path : string) :
  ~ In "/"%char (list_ascii_of_string path) ->
  os_path_split path = ("", path).
Proof.
  intro N. unfold os_path_split, rfind_sep.
  rewrite (rfind_from_absent _ 0 (-1) N). cbn [Z.add Z.to_nat firstn skipn].
  cbn. now rewrite string_of_list_ascii_of_string.
Qed.

Lemma os_path_split_at_last_sep (path : string) (before after : list ascii) :
  list_ascii_of_string path = before ++ "/"%char :: after ->
  ~ In "/"%char after ->
  os_path_split path
  = (string_of_list_ascii
       (if forallb is_sep (before ++ ["/"%char])
        then before ++ ["/"%char]
        else rstrip_sep (before ++ ["/"%char])),
     string_of_list_ascii after).
Proof.
  intros E N. unfold os_path_split. rewrite E.
  assert (Hin : In "/"%char (before ++ "/"%char :: after))
    by (apply in_or_app; right; now left).
  destruct (rfind_from_last _ 0 (-1) Hin) as [b' [a' [E' [N' R]]]].
  assert (Hb : b' = before /\ a' = after).
  { clear R Hin E. revert b' E'.
    induction before as [|x before IH]; intros [|y b'] E'; cbn in E'.
    - injection E' as <-. auto.
    - injection E' as <- E'. elim N. rewrite E'.
      apply in_or_app. right. now left.
    - injection E' as -> E'. elim N'. rewrite <- E'.
      apply in_or_app. right. now left.
    - injection E' as -> E'. destruct (IH b' E') as [-> ->]. auto. }
  destruct Hb as [-> ->]. unfold rfind_sep. rewrite R.
  replace (Z.to_nat (0 + Z.of_nat (List.length before) + 1))
    with (List.length (before ++ ["/"%char]))
    by (rewrite length_app; cbn; lia).
  replace (before ++ "/"%char :: after)
    with ((before ++ ["/"%char]) ++ after)
    by (rewrite <- app_assoc; reflexivity).
  rewrite firstn_app, Nat.sub_diag, firstn_O, app_nil_r, firstn_all.
  rewrite skipn_app, Nat.sub_diag, skipn_O, skipn_all. cbn [app].
  destruct (before ++ ["/"%char]) as [|x l] eqn:Eh;
    [now destruct before|reflexivity].
Qed.

Lemma os_path_isabs_no_sep (s : string) :
  ~ In "/"%char (list_ascii_of_string s) -> os_path_isabs s = false.
Proof.
  destruct s as [|c s]; [reflexivity|]. cbn. intro N.
  destruct (is_sep c) eqn:S; [|reflexivity].
  elim N. left. apply is_sep_eq. exact S.
Qed.

(** The file name that [os.path.split] cuts off holds no separator. *)
Lemma os_path_split_tail_no_sep (path : string) :
  ~ In "/"%char (list_ascii_of_string (snd (os_path_split path))).
Proof.
  destruct (in_dec ascii_dec "/"%char (list_ascii_of_string path))
    as [Hin|Hout].
  - destruct (rfind_from_last _ 0 (-1) Hin) as [before [after [E [N _]]]].
    rewrite (os_path_split_at_last_sep path before after E N). cbn [snd].
    now rewrite list_ascii_of_string_of_list_ascii.
  - now rewrite (os_path_split_no_sep path Hout).
Qed.

(** X6.  A file name from the caller is never taken for an absolute path,
    because the test is made on the part after the last separator:
    whenever the caller's path ends in a file name, that name is kept
    whatever name the media object carries, and the directory is always
    [PARENT_DIR / (directory or "downloads/")]. *)
Theorem caller_file_name_is_rerooted (self : BaseClient)
    (file_name_arg : string) (data : FileData) :
  snd (os_path_split file_name_arg) <> "" ->
  download_media_destination self file_name_arg data
  = (parent_join self
       (or_str (Some (fst (os_path_split file_name_arg)))
          DEFAULT_DOWNLOAD_DIR),
     snd (os_path_split file_name_arg)).
Proof.
  intro Hname. unfold download_media_destination.
  pose proof (os_path_split_tail_no_sep file_name_arg) as N.
  destruct (os_path_split file_name_arg) as [directory name].
  cbn [fst snd] in *.
  assert (E : or_str (Some name) (or_str (file_name data) "") = name)
    by (destruct name; [now elim Hname | reflexivity]).
  rewrite E, (os_path_isabs_no_sep name N). reflexivity.
Qed.

Lemma caller_file_name_is_rerooted_witness :
  snd (os_path_split "media/clip.mp4") <> ""
  /\ download_media_destination sample_client "media/clip.mp4"
       (FileData_of_attributes (Some "/etc/other") None None None)
     = ("/home/user/media", "clip.mp4").
Proof.
  split; [cbn; discriminate|].
  apply (caller_file_name_is_rerooted sample_client "media/clip.mp4"
           (FileData_of_attributes (Some "/etc/other") None None None)).
  cbn. discriminate.
Defined.

(** X7.  When the caller's path ends in no file name and the media object
    carries an absolute file name, that name is kept as it is and the
    directory is the caller's, not placed under the parent directory of the
    client. *)
Theorem absolute_media_name_is_kept (self : BaseClient)
    (file_name_arg : string) (data : FileData) (name : string) :
  snd (os_path_split file_name_arg) = "" ->
  file_name data = Some name ->
  os_path_isabs name = true ->
  download_media_destination self file_name_arg data
  = (fst (os_path_split file_name_arg), name).
Proof.
  intros Harg Hname Habs. unfold download_media_destination.
  destruct (os_path_split file_name_arg) as [directory tail].
  cbn [fst snd] in *. subst tail. rewrite Hname.
  destruct name as [|ch name]; [discriminate|].
  cbn [or_str]. rewrite Habs. reflexivity.
Qed.

Lemma absolute_media_name_is_kept_witness :
  snd (os_path_split "downloads/") = ""
  /\ os_path_isabs "/etc/motd" = true
  /\ download_media_destination sample_client "downloads/"
       (FileData_of_attributes (Some "/etc/motd") None None None)
     = ("downloads", "/etc/motd").
Proof.
  split; [reflexivity|]. split; [reflexivity|].
  apply (absolute_media_name_is_kept sample_client "downloads/"
           (FileData_of_attributes (Some "/etc/motd") None None None)
           "/etc/motd"); reflexivity.
Defined.

Lemma list_ascii_of_string_append (s t : string) :
  list_ascii_of_string (s ++ t)%string
  = list_ascii_of_string s ++ list_ascii_of_string t.
Proof.
  induction s as [|c s IH]; [reflexivity|]. cbn. now rewrite IH.
Qed.

(** X8.  The caller's path is taken for a directory, with no file name,
    exactly when it is empty or ends with ["/"]; the file name is then the
    one the media object carries, or empty when it carries none. *)
Theorem trailing_separator_means_directory (self : BaseClient)
    (path : string) (data : FileData) :
  (snd (os_path_split path) = ""
   <-> path = "" \/ exists q, path = (q ++ "/")%string)
  /\ (snd (os_path_split path) = "" ->
      snd (download_media_destination self path data)
      = or_str (file_name data) "").
Proof.
  split; [split|].
  - intro H.
    destruct (in_dec ascii_dec "/"%char (list_ascii_of_string path))
      as [Hin|Hout].
    + right.
      destruct (rfind_from_last _ 0 (-1) Hin) as [before [after [E [N _]]]].
      rewrite (os_path_split_at_last_sep path before after E N) in H.
      cbn [snd] in H. apply string_of_list_ascii_nil in H. subst after.
      exists (string_of_list_ascii before).
      rewrite <- (string_of_list_ascii_of_string path), E.
      rewrite <- (string_of_list_ascii_of_string
                    (string_of_list_ascii before ++ "/")%string).
      f_equal. rewrite list_ascii_of_string_append.
      now rewrite list_ascii_of_string_of_list_ascii.
    + left. rewrite (os_path_split_no_sep path Hout) in H. exact H.
  - intros [->|[q ->]]; [reflexivity|].
    rewrite (os_path_split_at_last_sep _ (list_ascii_of_string q) []).
    + reflexivity.
    + now rewrite list_ascii_of_string_append.
    + intros [].
  - intro H. unfold download_media_destination.
    destruct (os_path_split path) as [directory name].
    cbn [snd] in H. subst name. cbn [or_str].
    destruct (negb (os_path_isabs (or_str (file_name data) "")));
      reflexivity.
Qed.

Lemma trailing_separator_means_directory_witness :
  snd (os_path_split "media/") = ""
  /\ snd (download_media_destination sample_client "media/"
            (FileData_of_attributes (Some "report") None None None))
     = "report".
Proof.
  split; [reflexivity|].
  apply (proj2 (trailing_separator_means_directory sample_client "media/"
                  (FileData_of_attributes (Some "report") None None None))).
  reflexivity.
Defined.

(** ** The queue *)

(** X9.  A call that does not block returns [None] at once and leaves one
    more job at the end of the queue, after the jobs that were there, with
    the data, directory, file name and file reference that were prepared;
    the job owns a new pair [(done, path)] that no job queued before
    shares. *)
Theorem nonblocking_call_enqueues (self : BaseClient)
    (transfer : Job -> transfer_outcome) (message : download_arg)
    (file_name_arg : string) (rnd now : Z) (c : Client) (data : FileData)
    (directory name : string) (file_reference : bytes) :
  download_media_prepare self message file_name_arg rnd now
  = Return (data, directory, name, file_reference) ->
  exists c',
    download_media self transfer message file_name_arg false rnd now c
    = Some (Return None, c')
    /\ download_queue c'
       = download_queue c
           ++ [{| job_data := data; job_directory := directory;
                  job_file_name := name;
                  job_cell := List.length (cells c);
                  job_file_reference := file_reference |}]
    /\ cells c' = cells c ++ [new_cell]
    /\ (wf_client c ->
        wf_client c'
        /\ Forall (fun j => job_cell j <> List.length (cells c))
             (download_queue c)).
Proof.
  intro H. unfold download_media. rewrite H.
  eexists. split.
  { unfold get_cell. cbn [cells]. rewrite app_nth2 by lia.
    rewrite Nat.sub_diag. reflexivity. }
  split; [reflexivity|]. split; [reflexivity|].
  { intro Hwf. unfold wf_client in *. cbn [download_queue cells]. split.
    + apply Forall_app. split.
      * eapply Forall_impl; [|exact Hwf]. intros j Hj. cbn beta in *.
        rewrite length_app. cbn. lia.
      * constructor; [|constructor]. cbn. rewrite length_app. cbn. lia.
    + eapply Forall_impl; [|exact Hwf]. intros j Hj. cbn beta in *. lia. }
Qed.

Lemma nonblocking_call_enqueues_witness :
  exists c',
    download_media sample_client (fun _ => Failed) (arg_Media named_document)
      "downloads/" false 42 1546300800 empty_client
    = Some (Return None, c')
    /\ map job_file_name (download_queue c') = ["report"]
    /\ map job_directory (download_queue c') = ["/home/user/downloads"].
Proof.
  destruct (nonblocking_call_enqueues sample_client (fun _ => Failed)
              (arg_Media named_document) "downloads/" 42 1546300800
              empty_client
              (FileData_of_identifier (DocumentPlain 5 0 0 0)
                 (FileData_of_attributes (Some "report") (Some 1024)
                    (Some "application/pdf") (Some 1546300800)))
              "/home/user/downloads" "report" [])
    as [c' [E [Q _]]]; [vm_compute; reflexivity|].
  exists c'. split; [exact E|]. rewrite Q. split; reflexivity.
Defined.

(** X10.  The method raises only before it queues: if it raises, the
    exception is that of the preparation and the queue and the pairs
    [(done, path)] are as they were. *)
Theorem raising_call_queues_nothing (self : BaseClient)
    (transfer : Job -> transfer_outcome) (message : download_arg)
    (file_name_arg : string) (block : bool) (rnd now : Z) (c c' : Client)
    (e : exn) :
  download_media self transfer message file_name_arg block rnd now c
  = Some (Raise e, c') ->
  c' = c
  /\ download_media_prepare self message file_name_arg rnd now = Raise e.
Proof.
  unfold download_media. intro H.
  destruct (download_media_prepare self message file_name_arg rnd now)
    as [[[[data directory] name] file_reference]|e'].
  - destruct block.
    + destruct (done_wait transfer _ _); discriminate.
    + discriminate.
  - injection H as -> ->. auto.
Qed.

Lemma raising_call_queues_nothing_witness :
  download_media sample_client (fun _ => Failed) (arg_str "abc") "downloads/"
    true 42 0 empty_client
  = Some (Raise FileIdInvalid, empty_client)
  /\ download_media_prepare sample_client (arg_str "abc") "downloads/" 42 0
     = Raise FileIdInvalid.
Proof.
  split; [reflexivity|].
  apply (raising_call_queues_nothing sample_client (fun _ => Failed)
           (arg_str "abc") "downloads/" true 42 0 empty_client empty_client
           FileIdInvalid).
  reflexivity.
Defined.

(** ** From [Photo._parse] and [Sticker._parse] to [download_media] *)

Lemma decode_packed_with_thumb (self : BaseClient) (file_id_str : string)
    (data : FileData) (tag dc doc ah vol thumb loc : Z) (blob : bytes) :
  utils_decode self file_id_str = Return blob ->
  pack_with_thumb tag dc doc ah vol thumb loc = Return blob ->
  In tag [0; 2; 14] ->
  0 <= thumb < 1114112 ->
  download_media_decode self file_id_str data
  = Return (FileData_of_identifier
              (DocumentWithThumb tag dc doc ah vol thumb loc) data).
Proof.
  intros Hdec P Htag Hthumb.
  assert (Ht : 0 <= tag < 256 /\ (tag =? 1) = false)
    by (cbn [In] in Htag; destruct Htag as [<-|[<-|[<-|[]]]];
        split; solve [lia | reflexivity]).
  destruct Ht as [Ht T1].
  unfold download_media_decode, download_media_try.
  rewrite Hdec. cbn [bind]. unfold pack_with_thumb in P.
  rewrite (getitem0_pack _ _ _ _ P) by lia. cbn [bind].
  rewrite T1. apply in_tuple_In in Htag. rewrite Htag.
  rewrite (unpack_pack _ _ _ P). cbn [bind tl].
  unfold chr, ord.
  destruct (Z.leb_spec 0 thumb); destruct (Z.ltb_spec thumb 1114112);
    try lia.
  reflexivity.
Qed.

Lemma decode_packed_document (self : BaseClient) (file_id_str : string)
    (data : FileData) (tag dc doc ah : Z) (blob : bytes) :
  utils_decode self file_id_str = Return blob ->
  pack_document tag dc doc ah = Return blob ->
  In tag [3; 4; 5; 8; 9; 10; 13] ->
  download_media_decode self file_id_str data
  = Return (FileData_of_identifier (DocumentPlain tag dc doc ah) data).
Proof.
  intros Hdec P Htag.
  assert (Ht : 0 <= tag < 256 /\ (tag =? 1) = false
               /\ in_tuple tag [0; 2; 14] = false)
    by (cbn [In] in Htag;
        destruct Htag as [<-|[<-|[<-|[<-|[<-|[<-|[<-|[]]]]]]]];
        repeat split; solve [lia | reflexivity]).
  destruct Ht as [Ht [T1 T2]].
  unfold download_media_decode, download_media_try.
  rewrite Hdec. cbn [bind]. unfold pack_document in P.
  rewrite (getitem0_pack _ _ _ _ P) by lia. cbn [bind].
  rewrite T1, T2. apply in_tuple_In in Htag. rewrite Htag.
  rewrite (unpack_pack _ _ _ P). reflexivity.
Qed.

Lemma getitem_last_app {A : Type} (front : list A) (x : A) :
  getitem_last (front ++ [x]) = Return x.
Proof.
  destruct front as [|y front]; [reflexivity|].
  cbn [app getitem_last]. now rewrite last_last.
Qed.



(** X12.  Downloading, without a file name from the caller, the [Photo]
    that [Photo._parse] built: the job is prepared with media type 2, the
    data centre, id and access hash of the photo, the type of its last size
    as thumbnail code, the size and date of the photo, and a name made of
    the label of type 2, the timestamp, the random id and [".jpg"]. *)
Theorem parsed_photo_download (self : BaseClient)
    (r_id r_access_hash : Z) (r_file_reference : bytes) (r_date r_dc_id : Z)
    (front : list PhotoSize) (big : PhotoSize) (p : Photo)
    (file_name_arg label : string) (rnd now : Z) :
  (forall blob, utils_decode self (utils_encode self blob) = Return blob) ->
  Photo_parse self
    (raw_Photo r_id r_access_hash r_file_reference r_date r_dc_id
       (front ++ [big]))
  = Return (Some p) ->
  0 <= size_type big < 1114112 ->
  MEDIA_TYPE_ID self 2 = Some label ->
  snd (os_path_split file_name_arg) = "" ->
  exists data,
    download_media_prepare self (arg_Media (Media_of_Photo p)) file_name_arg
      rnd now
    = Return (data,
              parent_join self
                (or_str (Some (fst (os_path_split file_name_arg)))
                   DEFAULT_DOWNLOAD_DIR),
              (label ++ "_" ++ strftime self (or_int (Some r_date) now)
                 ++ "_" ++ str_int rnd ++ ".jpg")%string,
              r_file_reference)
    /\ media_type data = Some 2 /\ dc_id data = Some r_dc_id
    /\ document_id data = Some r_id
    /\ access_hash data = Some r_access_hash
    /\ thumb_size data = Some (size_type big)
    /\ file_size data = Some (size_size big)
    /\ date data = Some r_date.
Proof.
  intros Hframe Hparse Htype Hlabel Harg.
  unfold Photo_parse in Hparse. rewrite getitem_last_app in Hparse.
  cbn [bind] in Hparse. unfold Photo_parse_file_id in Hparse.
  destruct (pack_with_thumb 2 r_dc_id r_id r_access_hash
              (loc_volume_id (size_location big)) (size_type big)
              (loc_local_id (size_location big))) as [blob|e] eqn:P;
    [|discriminate].
  cbn [bind] in Hparse. injection Hparse as <-.
  unfold download_media_prepare.
  cbn [download_media_source Media_of_Photo m_file_id m_file_name
         m_file_size m_mime_type m_date m_file_reference photo_file_id
         photo_file_size photo_date photo_file_reference bind].
  rewrite (decode_packed_with_thumb self _ _ _ _ _ _ _ _ _ _
             (Hframe blob) P) by (cbn; tauto || assumption).
  cbn [bind]. unfold download_media_destination.
  destruct (os_path_split file_name_arg) as [directory tail].
  cbn [fst snd] in *. subst tail.
  cbn [FileData_of_identifier FileData_of_attributes file_name or_str
         os_path_isabs negb].
  unfold download_media_file_name.
  cbn [media_type]. rewrite Hlabel. cbn [bind].
  eexists. split; [reflexivity|]. cbn. repeat split; reflexivity.
Qed.

Lemma parsed_photo_download_witness :
  exists p data,
    Photo_parse sample_client
      (raw_Photo 7 9 [] 1546300800 4
         [{| size_type := 120;
             size_location := {| loc_volume_id := 3; loc_local_id := 4 |};
             size_w := 800; size_h := 600; size_size := 5000 |}])
    = Return (Some p)
    /\ download_media_prepare sample_client (arg_Media (Media_of_Photo p))
         "downloads/" 42 0
       = Return (data, "/home/user/downloads",
                 "photo_2019-01-01_00-00-00_42.jpg", [])
    /\ thumb_size data = Some 120.
Proof.
  assert (R : 0 <= 120 < 1114112) by lia.
  eexists.
  destruct (parsed_photo_download sample_client 7 9 [] 1546300800 4 []
              {| size_type := 120;
                 size_location := {| loc_volume_id := 3; loc_local_id := 4 |};
                 size_w := 800; size_h := 600; size_size := 5000 |}
              _ "downloads/" "photo" 42 0 framing_roundtrip eq_refl
              R eq_refl eq_refl)
    as [data [E [_ [_ [_ [_ [T _]]]]]]].
  exists data. split; [reflexivity|]. split; [exact E | exact T].
Defined.

(** X13.  Downloading, without a file name from the caller, a sticker
    that [Sticker._parse] built without a file name: the job is prepared
    with media type 8 and the id, access hash and data centre of the
    document, and its name ends with the extension guessed from the MIME
    type of the document, or with [".webp"] when there is no guess. *)
Theorem built_sticker_download (self : BaseClient)
    (set_name name : option string) (sticker : types_Document)
    (image_size_attributes : option DocumentAttributeImageSize)
    (sticker_attributes : DocumentAttributeSticker) (s : Sticker)
    (file_name_arg label : string) (rnd now : Z) :
  (forall blob, utils_decode self (utils_encode self blob) = Return blob) ->
  Sticker_build self set_name sticker image_size_attributes
    sticker_attributes name = Return s ->
  or_str name "" = "" ->
  MEDIA_TYPE_ID self 8 = Some label ->
  snd (os_path_split file_name_arg) = "" ->
  exists data,
    download_media_prepare self (arg_Media (Media_of_Sticker s))
      file_name_arg rnd now
    = Return (data,
              parent_join self
                (or_str (Some (fst (os_path_split file_name_arg)))
                   DEFAULT_DOWNLOAD_DIR),
              (label ++ "_"
                 ++ strftime self (or_int (Some (doc_date sticker)) now)
                 ++ "_" ++ str_int rnd
                 ++ or_str (guess_extension self
                              (Some (doc_mime_type sticker))) ".webp")%string,
              [])
    /\ media_type data = Some 8
    /\ dc_id data = Some (doc_dc_id sticker)
    /\ document_id data = Some (doc_id sticker)
    /\ access_hash data = Some (doc_access_hash sticker)
    /\ file_size data = Some (doc_size sticker).
Proof.
  intros Hframe Hbuild Hname Hlabel Harg.
  unfold Sticker_build, Sticker_parse_file_id in Hbuild.
  destruct (pack_document 8 (doc_dc_id sticker) (doc_id sticker)
              (doc_access_hash sticker)) as [blob|e] eqn:P; [|discriminate].
  cbn [bind] in Hbuild. injection Hbuild as <-.
  unfold download_media_prepare.
  cbn [download_media_source Media_of_Sticker m_file_id m_file_name
         m_file_size m_mime_type m_date m_file_reference sticker_file_id
         sticker_file_name sticker_file_size sticker_mime_type sticker_date
         bind].
  rewrite (decode_packed_document self _ _ _ _ _ _ _ (Hframe blob) P)
    by (cbn; tauto).
  cbn [bind]. unfold download_media_destination.
  destruct (os_path_split file_name_arg) as [directory tail].
  cbn [fst snd] in *. subst tail.
  cbn [FileData_of_identifier FileData_of_attributes file_name or_str].
  rewrite Hname. cbn [os_path_isabs negb].
  unfold download_media_file_name.
  cbn [media_type]. rewrite Hlabel. cbn [bind].
  eexists. split; [reflexivity|]. cbn. repeat split; reflexivity.
Qed.

Lemma built_sticker_download_witness :
  exists s data,
    Sticker_build sample_client (Some "cats")
      {| doc_id := 7; doc_access_hash := 9; doc_dc_id := 4;
         doc_mime_type := "image/webp"; doc_size := 2048;
         doc_date := 1546300800 |}
      None {| alt := ""; stickerset := InputStickerSetOther |} None
    = Return s
    /\ download_media_prepare sample_client (arg_Media (Media_of_Sticker s))
         "downloads/" 42 0
       = Return (data, "/home/user/downloads",
                 "sticker_2019-01-01_00-00-00_42.webp", [])
    /\ media_type data = Some 8.
Proof.
  eexists.
  destruct (built_sticker_download sample_client (Some "cats") None
              {| doc_id := 7; doc_access_hash := 9; doc_dc_id := 4;
                 doc_mime_type := "image/webp"; doc_size := 2048;
                 doc_date := 1546300800 |}
              None {| alt := ""; stickerset := InputStickerSetOther |}
              _ "downloads/" "sticker" 42 0 framing_roundtrip eq_refl
              eq_refl eq_refl eq_refl)
    as [data [E [T _]]].
  exists data. split; [reflexivity|]. split; [exact E | exact T].
Defined.

(** ** The cache of sticker-set names *)

Lemma lru_key_eqb_refl (k : lru_key) : lru_key_eqb k k = true.
Proof.
  unfold lru_key_eqb. now rewrite Nat.eqb_refl, !Z.eqb_refl.
Qed.

Lemma cache_remove_length (k : lru_key) (c : lru_cache) (v : option string) :
  cache_find k c = Some v ->
  S (List.length (cache_remove k c)) = List.length c.
Proof.
  induction c as [|[k' v'] c IH]; cbn [cache_find cache_remove];
    [discriminate|].
  destruct (lru_key_eqb k k'); intro H; [reflexivity|].
  cbn [List.length]. f_equal. now apply IH.
Qed.

Lemma lru_store_length (k : lru_key) (v : option string) (c : lru_cache) :
  (List.length c <= lru_maxsize)%nat ->
  (List.length (lru_store k v c) <= lru_maxsize)%nat.
Proof.
  intro H. unfold lru_store. cbn [List.length].
  destruct (Nat.leb_spec lru_maxsize (List.length c)) as [F|F]; [|lia].
  rewrite removelast_firstn_len, length_firstn.
  assert (0 < lru_maxsize)%nat by (unfold lru_maxsize; lia). lia.
Qed.

(** X14.  The cache of [_get_sticker_set_name] never holds more than 256
    names: a call on a cache within the bound leaves it within the bound,
    whether it hits, misses, or fails. *)
Theorem sticker_set_cache_is_bounded (client : nat) (key : Z * Z)
    (w w' : StickerWorld) (r : result (option string)) :
  (List.length (name_cache w) <= 256)%nat ->
  Sticker_get_sticker_set_name client key w = Some (r, w') ->
  (List.length (name_cache w') <= 256)%nat.
Proof.
  intros B H. unfold Sticker_get_sticker_set_name in H.
  destruct (cache_find (client, key) (name_cache w)) as [v|] eqn:F.
  - injection H as _ <-. cbn [name_cache lru_touch List.length].
    rewrite (cache_remove_length _ _ _ F). exact B.
  - unfold get_sticker_set_name_body in H.
    destruct (sticker_set_replies w) as [|reply rest]; [discriminate|].
    destruct reply as [short_name|e].
    + injection H as _ <-. cbn [name_cache]. now apply lru_store_length.
    + destruct e; try (injection H as _ <-; exact B).
      destruct (String.eqb name StickersetInvalid_name);
        injection H as _ <-; cbn [name_cache];
        [now apply lru_store_length | exact B].
Qed.

Lemma sticker_set_cache_is_bounded_witness :
  (List.length (name_cache
                  {| sticker_set_replies := [Return "cats"];
                     name_cache := []; sticker_set_requests := [] |})
   <= 256)%nat
  /\ (List.length (name_cache
                     {| sticker_set_replies := [];
                        name_cache := [((0%nat, (5%Z, 6%Z)), Some "cats")];
                        sticker_set_requests := [(5%Z, 6%Z)] |})
      <= 256)%nat.
Proof.
  split; [cbn; lia|].
  apply (sticker_set_cache_is_bounded 0 (5, 6)
           {| sticker_set_replies := [Return "cats"];
              name_cache := []; sticker_set_requests := [] |}
           _ (Return (Some "cats")));
    [cbn; lia | reflexivity].
Defined.

(** After a call that returned, the name is in the cache. *)
Lemma sticker_set_name_stored (client : nat) (key : Z * Z)
    (w w1 : StickerWorld) (v : option string) :
  Sticker_get_sticker_set_name client key w = Some (Return v, w1) ->
  cache_find (client, key) (name_cache w1) = Some v.
Proof.
  intro H. unfold Sticker_get_sticker_set_name in H.
  destruct (cache_find (client, key) (name_cache w)) as [v0|] eqn:F.
  - injection H as <- <-. cbn [name_cache lru_touch cache_find].
    now rewrite lru_key_eqb_refl.
  - unfold get_sticker_set_name_body in H.
    destruct (sticker_set_replies w) as [|reply rest]; [discriminate|].
    destruct reply as [short_name|e].
    + injection H as <- <-. cbn [name_cache lru_store cache_find].
      now rewrite lru_key_eqb_refl.
    + destruct e; try discriminate.
      destruct (String.eqb name StickersetInvalid_name); [|discriminate].
      injection H as <- <-. cbn [name_cache lru_store cache_find].
      now rewrite lru_key_eqb_refl.
Qed.

(** X15.  Two stickers of the same set parsed one after the other: the
    second [Sticker._parse] sends no [GetStickerSet] request, consumes no
    reply, and gives the same set name as the first, also when that name
    is the [None] of an invalid set. *)
Theorem second_sticker_asks_nothing (self : BaseClient) (client : nat)
    (set_id set_access_hash : Z)
    (sticker1 sticker2 : types_Document)
    (image1 image2 : option DocumentAttributeImageSize)
    (attributes1 attributes2 : DocumentAttributeSticker)
    (name1 name2 : option string) (s1 : Sticker) (w w1 : StickerWorld) :
  stickerset attributes1 = InputStickerSetID set_id set_access_hash ->
  stickerset attributes2 = InputStickerSetID set_id set_access_hash ->
  Sticker_parse self client sticker1 image1 attributes1 name1 w
  = Some (Return s1, w1) ->
  exists r2 w2,
    Sticker_parse self client sticker2 image2 attributes2 name2 w1
    = Some (r2, w2)
    /\ sticker_set_requests w2 = sticker_set_requests w1
    /\ sticker_set_replies w2 = sticker_set_replies w1
    /\ forall s2, r2 = Return s2 -> sticker_set_name s2 = sticker_set_name s1.
Proof.
  intros A1 A2 H. unfold Sticker_parse in *. rewrite A1 in H. rewrite A2.
  destruct (Sticker_get_sticker_set_name client (set_id, set_access_hash) w)
    as [[[v|e] w']|] eqn:G; try discriminate.
  assert (Hb : Sticker_build self v sticker1 image1 attributes1 name1
               = Return s1 /\ w' = w1)
    by (injection H as -> ->; auto).
  destruct Hb as [Hb ->].
  pose proof (sticker_set_name_stored _ _ _ _ _ G) as F.
  unfold Sticker_get_sticker_set_name at 1. rewrite F.
  eexists. eexists. split; [reflexivity|]. cbn [sticker_set_requests
    sticker_set_replies]. split; [reflexivity|]. split; [reflexivity|].
  intros s2 E. unfold Sticker_build in *.
  destruct (Sticker_parse_file_id self (doc_dc_id sticker1) (doc_id sticker1)
              (doc_access_hash sticker1)); [|discriminate].
  destruct (Sticker_parse_file_id self (doc_dc_id sticker2) (doc_id sticker2)
              (doc_access_hash sticker2)); [|discriminate].
  cbn [bind] in *. injection E as <-. injection Hb as <-. reflexivity.
Qed.

Lemma second_sticker_asks_nothing_witness :
  exists s1 w1 r2 w2,
    Sticker_parse sample_client 0
      {| doc_id := 7; doc_access_hash := 9; doc_dc_id := 4;
         doc_mime_type := "image/webp"; doc_size := 2048;
         doc_date := 1546300800 |}
      None {| alt := "x"; stickerset := InputStickerSetID 5 6 |} None
      {| sticker_set_replies := [Raise (RPCError "STICKERSET_INVALID")];
         name_cache := []; sticker_set_requests := [] |}
    = Some (Return s1, w1)
    /\ sticker_set_name s1 = None
    /\ Sticker_parse sample_client 0
         {| doc_id := 8; doc_access_hash := 10; doc_dc_id := 4;
            doc_mime_type := "image/webp"; doc_size := 4096;
            doc_date := 1546300801 |}
         None {| alt := "y"; stickerset := InputStickerSetID 5 6 |} None w1
       = Some (r2, w2)
    /\ sticker_set_requests w2 = [(5, 6)].
Proof.
  eexists. eexists.
  destruct (second_sticker_asks_nothing sample_client 0 5 6
              {| doc_id := 7; doc_access_hash := 9; doc_dc_id := 4;
                 doc_mime_type := "image/webp"; doc_size := 2048;
                 doc_date := 1546300800 |}
              {| doc_id := 8; doc_access_hash := 10; doc_dc_id := 4;
                 doc_mime_type := "image/webp"; doc_size := 4096;
                 doc_date := 1546300801 |}
              None None
              {| alt := "x"; stickerset := InputStickerSetID 5 6 |}
              {| alt := "y"; stickerset := InputStickerSetID 5 6 |}
              None None _
              {| sticker_set_replies := [Raise (RPCError "STICKERSET_INVALID")];
                 name_cache := []; sticker_set_requests := [] |}
              _ eq_refl eq_refl eq_refl)
    as [r2 [w2 [E [Q _]]]].
  exists r2, w2. split; [reflexivity|]. split; [reflexivity|].
  split; [exact E | exact Q].
Defined.

(** X16.  An error of the [GetStickerSet] request other than
    [StickersetInvalid] is raised to the caller of [Sticker._parse] and is
    not stored: the cache is as it was, and the request was made. *)
Theorem sticker_set_errors_are_not_cached (self : BaseClient) (client : nat)
    (set_id set_access_hash : Z) (sticker : types_Document)
    (image : option DocumentAttributeImageSize)
    (attributes : DocumentAttributeSticker) (name : option string)
    (w : StickerWorld) (e : exn) (rest : list (result string)) :
  stickerset attributes = InputStickerSetID set_id set_access_hash ->
  cache_find (client, (set_id, set_access_hash)) (name_cache w) = None ->
  sticker_set_replies w = Raise e :: rest ->
  e <> RPCError StickersetInvalid_name ->
  Sticker_parse self client sticker image attributes name w
  = Some (Raise e,
          {| sticker_set_replies := rest;
             name_cache := name_cache w;
             sticker_set_requests :=
               sticker_set_requests w ++ [(set_id, set_access_hash)] |}).
Proof.
  intros A F R N. unfold Sticker_parse, Sticker_get_sticker_set_name,
    get_sticker_set_name_body. rewrite A, F, R.
  destruct e; try reflexivity.
  destruct (String.eqb_spec name0 StickersetInvalid_name) as [->|D];
    [now elim N | reflexivity].
Qed.

Lemma sticker_set_errors_are_not_cached_witness :
  Sticker_parse sample_client 0
    {| doc_id := 7; doc_access_hash := 9; doc_dc_id := 4;
       doc_mime_type := "image/webp"; doc_size := 2048;
       doc_date := 1546300800 |}
    None {| alt := "x"; stickerset := InputStickerSetID 5 6 |} None
    {| sticker_set_replies := [Raise (RPCError "FLOOD_WAIT")];
       name_cache := []; sticker_set_requests := [] |}
  = Some (Raise (RPCError "FLOOD_WAIT"),
          {| sticker_set_replies := [];
             name_cache := []; sticker_set_requests := [(5, 6)] |}).
Proof.
  apply (sticker_set_errors_are_not_cached sample_client 0 5 6);
    [reflexivity | reflexivity | reflexivity | discriminate].
Defined.

(** ** More of the send loop *)

(** The loop through a list of turns that each end in another [send]. *)
Lemma send_loop_retries (video_note : string) (f : InputFile)
    (media : InputMedia) (r : Updates) (m : Message)
    (saves : list (result (option InputFile)))
    (sends : list (result Updates)) (ts : list retry) :
  Forall retry_is_one ts ->
  first_new_message (updates r) r = Some m ->
  forall turns w,
    (List.length ts < turns)%nat ->
    send_replies w = map retry_send_reply ts ++ Return r :: sends ->
    save_file_replies w = flat_map retry_save_replies ts ++ saves ->
    send_loop turns video_note (Some f) media w
    = Some (Return (Some m),
            {| path_exists := path_exists w;
               input_media_from_file_id := input_media_from_file_id w;
               save_file_replies := saves;
               send_replies := sends;
               calls := calls w
                          ++ flat_map (retry_calls video_note (file_id f)
                                         media) ts
                          ++ [call_send media] |}).
Proof.
  intros Hts Hm. induction Hts as [|t ts Ht Hts IH]; intros turns w L Hs Hv.
  - destruct turns as [|turns]; [cbn in L; lia|].
    destruct w as [pe im sv sn cl]. cbn in Hs, Hv. subst sv sn.
    cbn. rewrite Hm. reflexivity.
  - destruct turns as [|turns]; [cbn in L; lia|].
    cbn [List.length] in L. apply PeanoNat.lt_S_n in L.
    destruct w as [pe im sv sn cl].
    cbn [send_replies save_file_replies map flat_map app] in Hs, Hv.
    subst sv sn.
    destruct t as [part saved|r0].
    + cbn [send_loop send send_replies retry_send_reply app].
      cbn [io_bind io_lift attr_id save_file save_file_replies
             retry_save_replies app path_exists input_media_from_file_id
             calls send_replies].
      rewrite (IH turns _ L) by reflexivity.
      cbn [path_exists input_media_from_file_id calls flat_map retry_calls].
      repeat rewrite <- app_assoc. reflexivity.
    + cbn [retry_is_one] in Ht.
      cbn [send_loop send send_replies retry_send_reply app]. rewrite Ht.
      rewrite (IH turns _ L) by reflexivity.
      cbn [path_exists input_media_from_file_id calls flat_map retry_calls].
      repeat rewrite <- app_assoc. reflexivity.
Qed.

(** X17.  After the upload, every [send] that fails with a missing part
    is followed by one [save_file] of that part and another [send], and
    every [send] whose answer holds no new message is followed by another
    [send] of the same request; the first answer with a new message ends
    the method.  The calls are made in that order, and nothing else is
    called. *)
Theorem retries_until_a_message (video_note : string) (thumb : option string)
    (w : World) (tf : option InputFile) (f : InputFile) (ts : list retry)
    (r : Updates) (m : Message)
    (saves : list (result (option InputFile)))
    (sends : list (result Updates)) :
  path_exists w video_note = true ->
  save_file_replies w
  = match thumb with Some _ => [Return tf] | None => [] end
      ++ Return (Some f) :: flat_map retry_save_replies ts ++ saves ->
  send_replies w = map retry_send_reply ts ++ Return r :: sends ->
  Forall retry_is_one ts ->
  first_new_message (updates r) r = Some m ->
  exists w',
    send_video_note video_note thumb w = Some (Return (Some m), w')
    /\ calls w'
       = calls w
           ++ match thumb with
              | Some t => [call_save_file t None 0 false]
              | None => []
              end
           ++ [call_save_file video_note None 0 true]
           ++ flat_map
                (retry_calls video_note (file_id f)
                   (InputMediaUploadedDocument (Some f)
                      match thumb with Some _ => tf | None => None end)) ts
           ++ [call_send
                 (InputMediaUploadedDocument (Some f)
                    match thumb with Some _ => tf | None => None end)]
    /\ save_file_replies w' = saves /\ send_replies w' = sends.
Proof.
  intros Hexists Hsaves Hsends Hts Hm.
  destruct w as [pe im sv sn cl].
  cbn [path_exists save_file_replies send_replies calls] in *. subst sv.
  unfold send_video_note, except_StopTransmission, send_video_note_try.
  cbn [path_exists]. rewrite Hexists.
  assert (L : (List.length ts < S (List.length sn))%nat).
  { subst sn. rewrite length_app, length_map. cbn. lia. }
  destruct thumb as [t|];
    cbn [io_bind io_ret save_file save_file_replies app path_exists
           input_media_from_file_id calls send_replies];
    rewrite (send_loop_retries video_note f _ r m saves sends ts Hts Hm _ _ L)
      by (try exact Hsends; reflexivity);
    eexists; (split; [reflexivity|]);
    cbn [calls save_file_replies send_replies];
    repeat rewrite <- app_assoc; repeat split; reflexivity.
Qed.

Lemma retries_until_a_message_witness :
  exists w',
    send_video_note "note.mp4" None
      (sample_world
         [Return (Some {| file_id := 77 |}); Return None; Return None]
         [Raise (FilePartMissing 3);
          Return {| updates := [UpdateOther]; users := []; chats := [] |};
          Raise (FilePartMissing 0);
          Return {| updates := [UpdateNewScheduledMessage 11];
                    users := [1]; chats := [2] |}])
    = Some (Return (Some {| parsed_message := 11; parsed_users := [1];
                            parsed_chats := [2]; is_scheduled := true |}),
            w')
    /\ calls w'
       = [call_save_file "note.mp4" None 0 true;
          call_send (InputMediaUploadedDocument
                       (Some {| file_id := 77 |}) None);
          call_save_file "note.mp4" (Some 77) 3 false;
          call_send (InputMediaUploadedDocument
                       (Some {| file_id := 77 |}) None);
          call_send (InputMediaUploadedDocument
                       (Some {| file_id := 77 |}) None);
          call_save_file "note.mp4" (Some 77) 0 false;
          call_send (InputMediaUploadedDocument
                       (Some {| file_id := 77 |}) None)]
    /\ save_file_replies w' = [] /\ send_replies w' = [].
Proof.
  apply (retries_until_a_message "note.mp4" None
           (sample_world
              [Return (Some {| file_id := 77 |}); Return None; Return None]
              [Raise (FilePartMissing 3);
               Return {| updates := [UpdateOther]; users := [];
                         chats := [] |};
               Raise (FilePartMissing 0);
               Return {| updates := [UpdateNewScheduledMessage 11];
                         users := [1]; chats := [2] |}])
           None {| file_id := 77 |}
           [retry_missing 3 None;
            retry_no_message
              {| updates := [UpdateOther]; users := []; chats := [] |};
            retry_missing 0 None]
           {| updates := [UpdateNewScheduledMessage 11];
              users := [1]; chats := [2] |}
           {| parsed_message := 11; parsed_users := [1];
              parsed_chats := [2]; is_scheduled := true |}
           [] []);
    try reflexivity.
  repeat constructor.
Defined.

(** The loop without an uploaded file never calls [save_file]. *)
Lemma send_loop_without_file (video_note : string) (media : InputMedia)
    (turns : nat) :
  forall w r w',
    send_loop turns video_note None media w = Some (r, w') ->
    save_file_replies w' = save_file_replies w
    /\ exists sent, calls w' = calls w ++ sent /\ Forall is_call_send sent.
Proof.
  induction turns as [|turns IH]; intros w r w' H; [discriminate|].
  cbn [send_loop] in H. unfold send in H.
  destruct (send_replies w) as [|reply rest] eqn:Hs; [discriminate|].
  set (w1 := {| path_exists := path_exists w;
                input_media_from_file_id := input_media_from_file_id w;
                save_file_replies := save_file_replies w;
                send_replies := rest;
                calls := calls w ++ [call_send media] |}) in *.
  assert (Hone : save_file_replies w1 = save_file_replies w
                 /\ exists sent, calls w1 = calls w ++ sent
                                 /\ Forall is_call_send sent).
  { split; [reflexivity|]. exists [call_send media].
    split; [reflexivity|]. repeat constructor. }
  assert (Hmore : forall r0 w0,
             send_loop turns video_note None media w1 = Some (r0, w0) ->
             save_file_replies w0 = save_file_replies w
             /\ exists sent, calls w0 = calls w ++ sent
                             /\ Forall is_call_send sent).
  { intros r0 w0 H0. destruct (IH _ _ _ H0) as [S0 [sent [C0 F0]]].
    split; [exact S0|]. exists (call_send media :: sent).
    split; [rewrite C0; cbn [w1 calls]; now rewrite <- app_assoc|].
    constructor; [exact I | exact F0]. }
  destruct reply as [u|e].
  - destruct (first_new_message (updates u) u) as [m|].
    + injection H as _ <-. exact Hone.
    + exact (Hmore _ _ H).
  - destruct e; injection H as _ <-; exact Hone.
Qed.

(** X18.  Given a file id and not a path that exists, the method never
    calls [save_file], not even for the thumbnail: every call it makes is a
    [send], and no reply of [save_file] is consumed. *)
Theorem file_id_is_never_uploaded (video_note : string)
    (thumb : option string) (w w' : World) (r : result (option Message)) :
  path_exists w video_note = false ->
  send_video_note video_note thumb w = Some (r, w') ->
  save_file_replies w' = save_file_replies w
  /\ exists sent, calls w' = calls w ++ sent /\ Forall is_call_send sent.
Proof.
  intros Hexists H.
  unfold send_video_note, except_StopTransmission, send_video_note_try in H.
  rewrite Hexists in H. unfold io_bind, io_lift in H.
  destruct (input_media_from_file_id w video_note 13) as [media|e].
  - destruct (send_loop (S (List.length (send_replies w))) video_note None
                media w) as [[r0 w0]|] eqn:L; [|discriminate].
    assert (E : w0 = w') by (destruct r0 as [a|e]; [|destruct e];
                             injection H as _ <-; reflexivity).
    subst w0. exact (send_loop_without_file _ _ _ _ _ _ L).
  - assert (E : w = w') by (destruct e; injection H as _ <-; reflexivity).
    subst w'. split; [reflexivity|]. exists []. split; [|constructor].
    now rewrite app_nil_r.
Qed.

Lemma file_id_is_never_uploaded_witness :
  exists w',
    send_video_note "DQADBAAD" (Some "thumb.jpg")
      {| path_exists := fun _ => false;
         input_media_from_file_id :=
           fun s t => Return (InputMediaDocument s t);
         save_file_replies := [Return None];
         send_replies := [Return {| updates := [UpdateNewMessage 11];
                                    users := []; chats := [] |}];
         calls := [] |}
    = Some (Return (Some {| parsed_message := 11; parsed_users := [];
                            parsed_chats := []; is_scheduled := false |}),
            w')
    /\ save_file_replies w' = [Return None].
Proof.
  eexists. split; [reflexivity|].
  apply (file_id_is_never_uploaded "DQADBAAD" (Some "thumb.jpg")
           {| path_exists := fun _ => false;
              input_media_from_file_id :=
                fun s t => Return (InputMediaDocument s t);
              save_file_replies := [Return None];
              send_replies := [Return {| updates := [UpdateNewMessage 11];
                                         users := []; chats := [] |}];
              calls := [] |}
           _ (Return (Some {| parsed_message := 11; parsed_users := [];
                              parsed_chats := []; is_scheduled := false |})));
    reflexivity.
Defined.

(** X19.  Given a file id, a [send] that fails with a missing part makes
    the method raise [AttributeError]: there is no uploaded file whose [id]
    could be read, and nothing is sent again. *)
Theorem missing_part_without_upload (video_note : string)
    (thumb : option string) (w : World) (media : InputMedia) (part : Z)
    (sends : list (result Updates)) :
  path_exists w video_note = false ->
  input_media_from_file_id w video_note 13 = Return media ->
  send_replies w = Raise (FilePartMissing part) :: sends ->
  send_video_note video_note thumb w
  = Some (Raise (AttributeError "id"),
          {| path_exists := path_exists w;
             input_media_from_file_id := input_media_from_file_id w;
             save_file_replies := save_file_replies w;
             send_replies := sends;
             calls := calls w ++ [call_send media] |}).
Proof.
  intros Hexists Hmedia Hsends.
  unfold send_video_note, except_StopTransmission, send_video_note_try.
  rewrite Hexists. unfold io_bind at 1, io_lift at 1. rewrite Hmedia.
  rewrite Hsends. cbn [List.length send_loop]. unfold send.
  rewrite Hsends. reflexivity.
Qed.

Lemma missing_part_without_upload_witness :
  send_video_note "DQADBAAD" None
    {| path_exists := fun _ => false;
       input_media_from_file_id := fun s t => Return (InputMediaDocument s t);
       save_file_replies := [];
       send_replies := [Raise (FilePartMissing 2)];
       calls := [] |}
  = Some (Raise (AttributeError "id"),
          {| path_exists := fun _ => false;
             input_media_from_file_id :=
               fun s t => Return (InputMediaDocument s t);
             save_file_replies := [];
             send_replies := [];
             calls := [call_send (InputMediaDocument "DQADBAAD" 13)] |}).
Proof.
  apply (missing_part_without_upload "DQADBAAD" None
           {| path_exists := fun _ => false;
              input_media_from_file_id :=
                fun s t => Return (InputMediaDocument s t);
              save_file_replies := [];
              send_replies := [Raise (FilePartMissing 2)];
              calls := [] |}
           (InputMediaDocument "DQADBAAD" 13) 2 []);
    reflexivity.
Defined.

(** The loop ends with a message or with an exception, never with
    [None]. *)
Lemma send_loop_not_None (video_note : string) (file : option InputFile)
    (media : InputMedia) (turns : nat) :
  forall w w',
    send_loop turns video_note file media w <> Some (Return None, w').
Proof.
  induction turns as [|turns IH]; intros w w' H; [discriminate|].
  cbn [send_loop] in H.
  destruct (send media w) as [[[u|e] w1]|]; [| |discriminate].
  - destruct (first_new_message (updates u) u); [discriminate|].
    exact (IH _ _ H).
  - destruct e; try discriminate.
    unfold io_bind, io_lift in H.
    destruct (attr_id file) as [id|e]; [|discriminate].
    destruct (save_file video_note (Some id) x false w1) as [[[s|e] w2]|];
      [|discriminate|discriminate].
    exact (IH _ _ H).
Qed.

(** X20.  The method returns [None] only when the transmission was
    stopped: whenever its result is [None], a call inside the [try] raised
    [StopTransmission]. *)
Theorem None_only_when_stopped (video_note : string) (thumb : option string)
    (w w' : World) :
  send_video_note video_note thumb w = Some (Return None, w') ->
  send_video_note_try video_note thumb w = Some (Raise StopTransmission, w').
Proof.
  unfold send_video_note, except_StopTransmission. intro H.
  destruct (send_video_note_try video_note thumb w) as [[[a|e] w0]|] eqn:T;
    [| |discriminate].
  - exfalso. injection H as -> ->.
    unfold send_video_note_try in T.
    destruct (path_exists w video_note).
    + unfold io_bind in T.
      destruct (match thumb with
                | Some t => save_file t None 0 false
                | None => io_ret None
                end w) as [[[th|e] w1]|]; try discriminate.
      destruct (save_file video_note None 0 true w1) as [[[f|e] w2]|];
        try discriminate.
      exact (send_loop_not_None _ _ _ _ _ _ T).
    + unfold io_bind, io_lift in T.
      destruct (input_media_from_file_id w video_note 13) as [media|e];
        [|discriminate].
      exact (send_loop_not_None _ _ _ _ _ _ T).
  - destruct e; try discriminate. injection H as <-. reflexivity.
Qed.

Lemma None_only_when_stopped_witness :
  send_video_note "note.mp4" None
    (sample_world [Return (Some {| file_id := 77 |})]
       [Raise StopTransmission])
  = Some (Return None,
          {| path_exists := fun _ => true;
             input_media_from_file_id :=
               fun s t => Return (InputMediaDocument s t);
             save_file_replies := [];
             send_replies := [];
             calls := [call_save_file "note.mp4" None 0 true;
                       call_send (InputMediaUploadedDocument
                                    (Some {| file_id := 77 |}) None)] |})
  /\ send_video_note_try "note.mp4" None
       (sample_world [Return (Some {| file_id := 77 |})]
          [Raise StopTransmission])
     = Some (Raise StopTransmission,
             {| path_exists := fun _ => true;
                input_media_from_file_id :=
                  fun s t => Return (InputMediaDocument s t);
                save_file_replies := [];
                send_replies := [];
                calls := [call_save_file "note.mp4" None 0 true;
                          call_send (InputMediaUploadedDocument
                                       (Some {| file_id := 77 |}) None)] |}).
Proof.
  split; [reflexivity|].
  apply (None_only_when_stopped "note.mp4" None
           (sample_world [Return (Some {| file_id := 77 |})]
              [Raise StopTransmission])).
  reflexivity.
Defined.

(** X21.  When the upload of the thumbnail or of the video note raises an
    exception other than [StopTransmission], the exception reaches the
    caller and no [send] is made: after a failed thumbnail the video note
    is not uploaded either, and the replies of [send] are untouched. *)
Theorem failed_upload_sends_nothing (video_note : string) (w : World)
    (e : exn) (saves : list (result (option InputFile))) :
  path_exists w video_note = true ->
  e <> StopTransmission ->
  (forall t,
     save_file_replies w = Raise e :: saves ->
     send_video_note video_note (Some t) w
     = Some (Raise e,
             {| path_exists := path_exists w;
                input_media_from_file_id := input_media_from_file_id w;
                save_file_replies := saves;
                send_replies := send_replies w;
                calls := calls w ++ [call_save_file t None 0 false] |}))
  /\ (forall t tf,
        save_file_replies w = Return tf :: Raise e :: saves ->
        send_video_note video_note (Some t) w
        = Some (Raise e,
                {| path_exists := path_exists w;
                   input_media_from_file_id := input_media_from_file_id w;
                   save_file_replies := saves;
                   send_replies := send_replies w;
                   calls := calls w
                              ++ [call_save_file t None 0 false;
                                  call_save_file video_note None 0 true] |}))
  /\ (save_file_replies w = Raise e :: saves ->
      send_video_note video_note None w
      = Some (Raise e,
              {| path_exists := path_exists w;
                 input_media_from_file_id := input_media_from_file_id w;
                 save_file_replies := saves;
                 send_replies := send_replies w;
                 calls := calls w
                            ++ [call_save_file video_note None 0 true] |})).
Proof.
  intros Hexists Hstop.
  unfold send_video_note, except_StopTransmission, send_video_note_try.
  rewrite Hexists. unfold io_bind, io_ret, save_file.
  split; [|split].
  - intros t Hs. rewrite Hs. destruct e; try reflexivity. now elim Hstop.
  - intros t tf Hs. rewrite Hs. cbn [save_file_replies calls path_exists
      input_media_from_file_id send_replies].
    rewrite <- app_assoc. destruct e; try reflexivity. now elim Hstop.
  - intro Hs. rewrite Hs. destruct e; try reflexivity. now elim Hstop.
Qed.

Lemma failed_upload_sends_nothing_witness :
  send_video_note "note.mp4" (Some "thumb.jpg")
    (sample_world [Raise (RPCError "FILE_PARTS_INVALID")]
       [Return {| updates := [UpdateNewMessage 11]; users := [];
                  chats := [] |}])
  = Some (Raise (RPCError "FILE_PARTS_INVALID"),
          {| path_exists := fun _ => true;
             input_media_from_file_id :=
               fun s t => Return (InputMediaDocument s t);
             save_file_replies := [];
             send_replies := [Return {| updates := [UpdateNewMessage 11];
                                        users := []; chats := [] |}];
             calls := [call_save_file "thumb.jpg" None 0 false] |}).
Proof.
  apply (proj1 (failed_upload_sends_nothing "note.mp4"
                  (sample_world [Raise (RPCError "FILE_PARTS_INVALID")]
                     [Return {| updates := [UpdateNewMessage 11];
                                users := []; chats := [] |}])
                  (RPCError "FILE_PARTS_INVALID") [] eq_refl
                  ltac:(discriminate))
           "thumb.jpg").
  reflexivity.
Defined.

(** ** Names that differ *)

Lemma to_int_not_nil (z : Z) :
  Z.to_int z <> Decimal.Pos Decimal.Nil
  /\ Z.to_int z <> Decimal.Neg Decimal.Nil.
Proof.
  destruct z as [|p|p]; cbn; split; try discriminate;
    intro H; injection H as H; now apply DecimalPos.Unsigned.to_uint_nonnil in H.
Qed.

Lemma str_int_inj (a b : Z) : str_int a = str_int b -> a = b.
Proof.
  unfold str_int. intro H.
  apply DecimalZ.to_int_inj.
  destruct (to_int_not_nil a) as [A1 A2].
  destruct (to_int_not_nil b) as [B1 B2].
  pose proof (NilZero.isi _ A1 A2) as Ia.
  pose proof (NilZero.isi _ B1 B2) as Ib.
  rewrite H in Ia. rewrite Ia in Ib. now injection Ib.
Qed.

Lemma append_inj_l (s a b : string) :
  (s ++ a)%string = (s ++ b)%string -> a = b.
Proof.
  induction s as [|c s IH]; cbn; intro H; [exact H|].
  injection H as H. now apply IH.
Qed.

Lemma length_append (a b : string) :
  String.length (a ++ b)%string = (String.length a + String.length b)%nat.
Proof.
  induction a as [|c a IH]; cbn; [reflexivity|]. now rewrite IH.
Qed.

Lemma append_inj_r (a b e : string) :
  (a ++ e)%string = (b ++ e)%string -> a = b.
Proof.
  intro H.
  assert (L : String.length a = String.length b).
  { apply (f_equal String.length) in H. rewrite !length_append in H. lia. }
  revert b H L. induction a as [|c a IH]; intros [|d b] H L;
    cbn in L; try discriminate; [reflexivity|].
  cbn in H. injection H as -> H. f_equal. apply IH; [exact H | lia].
Qed.

(** X22.  Two names synthesized for the same media at the same time are
    equal only if the random ids are equal: the id is what keeps the files
    of two downloads apart. *)
Theorem synthesized_names_differ_by_id (self : BaseClient) (data : FileData)
    (media_type_str : string) (rnd1 rnd2 now : Z) :
  rnd1 <> rnd2 ->
  synthesized_name self data media_type_str rnd1 now
  <> synthesized_name self data media_type_str rnd2 now.
Proof.
  intros N H. apply N. unfold synthesized_name in H.
  do 4 apply append_inj_l in H.
  apply append_inj_r in H. now apply str_int_inj.
Qed.

Lemma synthesized_names_differ_by_id_witness :
  synthesized_name sample_client
    (FileData_of_attributes None None None None) "photo" 41 0
  <> synthesized_name sample_client
       (FileData_of_attributes None None None None) "photo" 42 0.
Proof.
  apply (synthesized_names_differ_by_id sample_client
           (FileData_of_attributes None None None None) "photo" 41 42 0).
  discriminate.
Defined.
